(** * Tuvok: remote brick protocol, external dataset and SBVR-2D render state

    A shallow embedding of
      - [IO/sockethelper/parameterwrapper.cpp]  (request objects of the remote
        brick server: construction, wire reading and writing, MPI fan-out,
        the OPEN response),
      - [ExternalDataset.h]                     (inline members of the external
        dataset),
      - [Renderer/GL/GLSBVR2D.cpp]              (blend state and per-brick
        shader uniforms of the 2-D slice based volume renderer).

    Conventions.  A [w]-bit unsigned integer is a [Z] with its wrap-around
    written out.  A byte on the wire is a [Z] in [0, 256).  A [float] that is
    only transported (never computed with) is carried as its IEEE-754 binary32
    bit pattern, a 32-bit [Z].  Methods that mutate [this] take the object and
    return the updated one; file descriptors index a table of byte queues.
    An array is the list of its elements; a statement that reads or writes
    past the end of an array has no defined outcome, [None]. *)

From Stdlib Require Import ZArith Lia Ascii DecimalString DecimalZ DecimalPos Permutation.
From stdpp Require Import gmap list strings.

Local Open Scope Z_scope.

(** ** Fixed-width unsigned integers *)

Definition wrap (w : Z) (z : Z) : Z := z mod 2 ^ w.

Definition in_range (w : Z) (z : Z) : Prop := 0 <= z < 2 ^ w.

Definition uint8_t  (z : Z) : Z := wrap 8 z.
Definition uint16_t (z : Z) : Z := wrap 16 z.
Definition uint32_t (z : Z) : Z := wrap 32 z.

(** ** Byte order of the wire

    Modelled from the spec: the socket helpers ([sockhelp]: [wru8], [wru16],
    [wru32], [wrsizet], [wr], [wrf32v], [wru32v], the data-only [_d] variants
    and the readers [ru8], [ru16], [ru32], [rsizet], [rf32v],
    [readFromSocket]) are not part of the sources at hand.  The protocol
    description fixes what they put on the wire: every multibyte integer is
    big-endian, a [size_t] travels as a [u32], a float vector is its [u32]
    length followed by the floats, and the fields of the OPEN response are
    bare sequences of elements. *)

Module Wire.

(** [be_bytes n v]: the [n] low-order bytes of [v], most significant first. *)
Fixpoint be_bytes (n : nat) (v : Z) : list Z :=
  match n with
  | O => []
  | S k => Z.land (Z.shiftr v (8 * Z.of_nat k)) 255 :: be_bytes k v
  end.

Definition be_step (acc b : Z) : Z := Z.lor (Z.shiftl acc 8) b.

(** [be_value bs]: the integer whose big-endian image is [bs]. *)
Definition be_value (bs : list Z) : Z := fold_left be_step bs 0.

(** *** Connections

    A connected socket has two directions: [rx], the bytes that arrived
    and were not read yet, and [tx], the bytes written so far. *)

Record conn := Conn { rx : list Z; tx : list Z }.

Definition send (fd : Z) (bs : list Z) (net : gmap Z conn) : gmap Z conn :=
  match net !! fd with
  | Some c => <[fd := Conn (rx c) (tx c ++ bs)]> net
  | None => net
  end.

(** Modelled from the spec: the body of [readFromSocket] is not at hand.  A
    read of [n] bytes succeeds when [n] bytes are there; a short read fails
    and leaves nothing behind. *)
Definition recv (fd : Z) (n : nat) (net : gmap Z conn)
  : option (list Z) * gmap Z conn :=
  match net !! fd with
  | Some c =>
      if decide (n <= length (rx c))%nat
      then (Some (take n (rx c)), <[fd := Conn (drop n (rx c)) (tx c)]> net)
      else (None, <[fd := Conn [] (tx c)]> net)
  | None => (None, net)
  end.

(** *** Arrays handed over by pointer and count *)

(** [buf[0 .. count)], as a callee reads it through the pointer it is
    given: the first [count] elements when the array has that many.  Reading
    past the end of the array is undefined, [None]. *)
Definition elements {A : Type} (buf : list A) (count : nat) : option (list A) :=
  if decide (count <= length buf)%nat then Some (take count buf) else None.

(** [T a[n]], into which a loop stores the elements of [l] at the indices
    0, 1, ... in turn: the array when the loop fills it exactly.  A store
    past the end of the array is undefined, [None]. *)
Definition array_of {A : Type} (n : Z) (l : list A) : option (list A) :=
  if decide (Z.of_nat (length l) = n) then Some l else None.

(** *** Writers

    Modelled from the spec: the writers of [sockhelp] are not at hand.
    Integers go out big-endian, a [size_t] as a [u32].  A float vector
    ([wrf32v]) is its [u32] length followed by the floats.  The fields of the
    OPEN response are listed as bare sequences of elements, with no length
    word in front of [brick_layout] (written with [wru32v]) nor in front of
    [lods], [idxs], [centers], [extents] and [n_voxels] (written with the
    [_d] helpers): these helpers put [count] elements on the wire and nothing
    else. *)

Definition wr (fd : Z) (buf : list Z) (len : Z) (net : gmap Z conn)
    : option (gmap Z conn) :=
  (fun bs => send fd bs net) <$> elements buf (Z.to_nat len).
Definition wru8  (fd : Z) (v : Z) := send fd (be_bytes 1 v).
Definition wru16 (fd : Z) (v : Z) := send fd (be_bytes 2 v).
Definition wru32 (fd : Z) (v : Z) := send fd (be_bytes 4 v).
Definition wrsizet (fd : Z) (v : Z) := wru32 fd (uint32_t v).

Definition be32s (buf : list Z) : list Z := flat_map (be_bytes 4) buf.

Definition wru32v_d (fd : Z) (buf : list Z) (count : Z) (net : gmap Z conn)
    : option (gmap Z conn) :=
  (fun l => send fd (be32s l) net) <$> elements buf (Z.to_nat count).
Definition wrf32v_d (fd : Z) (buf : list Z) (count : Z) (net : gmap Z conn)
    : option (gmap Z conn) :=
  (fun l => send fd (be32s l) net) <$> elements buf (Z.to_nat count).
Definition wrsizetv_d (fd : Z) (buf : list Z) (count : Z) (net : gmap Z conn)
    : option (gmap Z conn) :=
  (fun l => send fd (be32s (uint32_t <$> l)) net) <$> elements buf (Z.to_nat count).

Definition wru32v (fd : Z) (buf : list Z) (count : Z) (net : gmap Z conn)
    : option (gmap Z conn) :=
  (fun l => send fd (be32s l) net) <$> elements buf (Z.to_nat count).
Definition wrf32v (fd : Z) (buf : list Z) (count : Z) (net : gmap Z conn)
    : option (gmap Z conn) :=
  wrf32v_d fd buf count (wrsizet fd count net).

(** *** Readers

    Modelled from the spec: the readers of [sockhelp] are not at hand; each
    undoes the writer of the same name. *)

Definition readFromSocket (fd : Z) (len : Z) := recv fd (Z.to_nat len).

Definition ru (n : nat) (fd : Z) (net : gmap Z conn) : option Z * gmap Z conn :=
  let '(r, net) := recv fd n net in (be_value <$> r, net).

Definition ru8  := ru 1.
Definition ru16 := ru 2.
Definition ru32 := ru 4.
Definition rsizet := ru 4.

(** [be32_values n bs]: [n] consecutive big-endian 32-bit words of [bs]. *)
Fixpoint be32_values (n : nat) (bs : list Z) : list Z :=
  match n with
  | O => []
  | S k => be_value (take 4 bs) :: be32_values k (drop 4 bs)
  end.

(** Modelled from the spec: [rf32v] reads the element count, then that many
    floats; it hands back the freshly allocated array and its size. *)
Definition rf32v (fd : Z) (net : gmap Z conn) : option (list Z * Z) * gmap Z conn :=
  let '(rc, net) := rsizet fd net in
  match rc with
  | Some count =>
      let '(rb, net) := recv fd (4 * Z.to_nat count) net in
      ((fun bs => (be32_values (Z.to_nat count) bs, count)) <$> rb, net)
  | None => (None, net)
  end.

(** A call whose status is ignored leaves its destination as it was when
    the read failed. *)
Definition assign {A} (r : option A) (old : A) : A := default old r.

End Wire.

Import Wire.

(** ** Request objects of the remote brick server *)

(** The command codes.  [createFrom] switches over the seven enumerators
    below; [nds_other v] stands for any value of the enumeration that is none
    of them. *)
Inductive NetDSCommandCode :=
| nds_OPEN
| nds_CLOSE
| nds_BRICK
| nds_LIST_FILES
| nds_SHUTDOWN
| nds_ROTATION
| nds_BATCHSIZE
| nds_other (v : Z).

(** Element types of a brick payload, with the numbering of the protocol. *)
Inductive NetDataType := N_UINT8 | N_UINT16 | N_UINT32.

Definition NetDataType_of (type : Z) : option NetDataType :=
  if type =? 0 then Some N_UINT8
  else if type =? 1 then Some N_UINT16
  else if type =? 2 then Some N_UINT32
  else None.

Record OpenParams := mkOpenParams {
  OpenParams_code : NetDSCommandCode;
  OpenParams_len : Z;                  (* uint16_t *)
  OpenParams_filename : list Z         (* char*    *)
}.

Record CloseParams := mkCloseParams {
  CloseParams_code : NetDSCommandCode;
  CloseParams_len : Z;
  CloseParams_filename : list Z
}.

Record BatchSizeParams := mkBatchSizeParams {
  BatchSizeParams_code : NetDSCommandCode;
  BatchSizeParams_newBatchSize : Z     (* size_t *)
}.

Record RotateParams := mkRotateParams {
  RotateParams_code : NetDSCommandCode;
  RotateParams_matrix : list Z;        (* float*, as bit patterns *)
  RotateParams_matSize : Z;            (* size_t  *)
  RotateParams_type : Z                (* uint8_t *)
}.

Record BrickParams := mkBrickParams {
  BrickParams_code : NetDSCommandCode;
  BrickParams_type : Z;                (* uint8_t  *)
  BrickParams_lod : Z;                 (* uint32_t *)
  BrickParams_bidx : Z                 (* uint32_t *)
}.

Record SimpleParams := mkSimpleParams {
  SimpleParams_code : NetDSCommandCode
}.

(** The class hierarchy under [ParameterWrapper]; [ListFilesParams] and
    [ShutdownParams] derive from [SimpleParams]. *)
Inductive ParameterWrapper :=
| IsOpenParams (p : OpenParams)
| IsCloseParams (p : CloseParams)
| IsBrickParams (p : BrickParams)
| IsListFilesParams (p : SimpleParams)
| IsShutdownParams (p : SimpleParams)
| IsRotateParams (p : RotateParams)
| IsBatchSizeParams (p : BatchSizeParams).

Definition code (w : ParameterWrapper) : NetDSCommandCode :=
  match w with
  | IsOpenParams p => OpenParams_code p
  | IsCloseParams p => CloseParams_code p
  | IsBrickParams p => BrickParams_code p
  | IsListFilesParams p => SimpleParams_code p
  | IsShutdownParams p => SimpleParams_code p
  | IsRotateParams p => RotateParams_code p
  | IsBatchSizeParams p => BatchSizeParams_code p
  end.

(** What [new] hands out: the members of a fresh object and the contents of
    a fresh [char] array are indeterminate until something is stored there. *)
Record Storage := mkStorage {
  new_OpenParams : OpenParams;
  new_CloseParams : CloseParams;
  new_BatchSizeParams : BatchSizeParams;
  new_RotateParams : RotateParams;
  new_BrickParams : BrickParams;
  garbage : nat -> Z
}.

(** [new char[n]]: [n] bytes of whatever the storage held. *)
Definition new_char (heap : Storage) (n : nat) : list Z := garbage heap <$> seq 0 n.

(** *** Initialisators

    The [TRACE] lines only feed the debug channels and are left out. *)

Definition OpenParams_initFromSocket (heap : Storage) (socket : Z)
    (this : OpenParams) (net : gmap Z conn) : OpenParams * gmap Z conn :=
  let '(r, net) := ru16 socket net in
  let len := assign r (OpenParams_len this) in
  let filename := new_char heap (Z.to_nat len) in
  let '(rb, net) := readFromSocket socket (len * 1) net in
  (mkOpenParams (OpenParams_code this) len (assign rb filename), net).

Definition CloseParams_initFromSocket (heap : Storage) (socket : Z)
    (this : CloseParams) (net : gmap Z conn) : CloseParams * gmap Z conn :=
  let '(r, net) := ru16 socket net in
  let len := assign r (CloseParams_len this) in
  let filename := new_char heap (Z.to_nat len) in
  let '(rb, net) := readFromSocket socket (len * 1) net in
  (mkCloseParams (CloseParams_code this) len (assign rb filename), net).

Definition BatchSizeParams_initFromSocket (socket : Z)
    (this : BatchSizeParams) (net : gmap Z conn) : BatchSizeParams * gmap Z conn :=
  let '(r, net) := rsizet socket net in
  (mkBatchSizeParams (BatchSizeParams_code this)
     (assign r (BatchSizeParams_newBatchSize this)), net).

Definition RotateParams_initFromSocket (socket : Z)
    (this : RotateParams) (net : gmap Z conn) : RotateParams * gmap Z conn :=
  let '(rm, net) := rf32v socket net in
  let '(matrix, matSize) :=
    assign rm (RotateParams_matrix this, RotateParams_matSize this) in
  let '(rt, net) := ru8 socket net in
  (mkRotateParams (RotateParams_code this) matrix matSize
     (assign rt (RotateParams_type this)), net).

Definition BrickParams_initFromSocket (socket : Z)
    (this : BrickParams) (net : gmap Z conn) : BrickParams * gmap Z conn :=
  let '(rt, net) := ru8 socket net in
  let '(rl, net) := ru32 socket net in
  let '(rb, net) := ru32 socket net in
  (mkBrickParams (BrickParams_code this)
     (assign rt (BrickParams_type this))
     (assign rl (BrickParams_lod this))
     (assign rb (BrickParams_bidx this)), net).

Definition SimpleParams_initFromSocket (socket : Z)
    (this : SimpleParams) (net : gmap Z conn) : SimpleParams * gmap Z conn :=
  (this, net).

(** *** Constructors

    Each constructor first runs [ParameterWrapper(code)], then reads its
    members unless the descriptor is [-1]. *)

Definition OpenParams_new (heap : Storage) (socket : Z) (net : gmap Z conn) :=
  let this := mkOpenParams nds_OPEN (OpenParams_len (new_OpenParams heap))
                (OpenParams_filename (new_OpenParams heap)) in
  if socket =? -1 then (this, net) else OpenParams_initFromSocket heap socket this net.

Definition CloseParams_new (heap : Storage) (socket : Z) (net : gmap Z conn) :=
  let this := mkCloseParams nds_CLOSE (CloseParams_len (new_CloseParams heap))
                (CloseParams_filename (new_CloseParams heap)) in
  if socket =? -1 then (this, net) else CloseParams_initFromSocket heap socket this net.

Definition BatchSizeParams_new (heap : Storage) (socket : Z) (net : gmap Z conn) :=
  let this := mkBatchSizeParams nds_BATCHSIZE
                (BatchSizeParams_newBatchSize (new_BatchSizeParams heap)) in
  if socket =? -1 then (this, net) else BatchSizeParams_initFromSocket socket this net.

Definition BrickParams_new (heap : Storage) (socket : Z) (net : gmap Z conn) :=
  let this := mkBrickParams nds_BRICK (BrickParams_type (new_BrickParams heap))
                (BrickParams_lod (new_BrickParams heap))
                (BrickParams_bidx (new_BrickParams heap)) in
  if socket =? -1 then (this, net) else BrickParams_initFromSocket socket this net.

Definition RotateParams_new (heap : Storage) (socket : Z) (net : gmap Z conn) :=
  let this := mkRotateParams nds_ROTATION (RotateParams_matrix (new_RotateParams heap))
                (RotateParams_matSize (new_RotateParams heap))
                (RotateParams_type (new_RotateParams heap)) in
  if socket =? -1 then (this, net) else RotateParams_initFromSocket socket this net.

Definition SimpleParams_new (c : NetDSCommandCode) : SimpleParams := mkSimpleParams c.
Definition ListFilesParams_new (c : NetDSCommandCode) : SimpleParams := SimpleParams_new c.
Definition ShutdownParams_new (c : NetDSCommandCode) : SimpleParams := SimpleParams_new c.

(** ** Bricks and the dataset interface seen by the server *)

Record VECTOR3 (A : Type) := Vec3 { x : A; y : A; z : A }.
Arguments Vec3 {A} _ _ _.
Arguments x {A} _.
Arguments y {A} _.
Arguments z {A} _.

(** [(timestep, lod, linear index)] *)
Definition BrickKey : Type := Z * Z * Z.

Definition key_timestep (k : BrickKey) : Z := k.1.1.
Definition key_lod (k : BrickKey) : Z := k.1.2.
Definition key_index (k : BrickKey) : Z := k.2.

Record BrickMD := mkBrickMD {
  center : VECTOR3 Z;      (* FLOATVECTOR3, bit patterns *)
  extents : VECTOR3 Z;     (* FLOATVECTOR3, bit patterns *)
  n_voxels : VECTOR3 Z     (* UINTVECTOR3 *)
}.

(** The part of [Dataset] that [OpenParams::perform] queries.  The brick
    table is listed in the order its iterator visits it. *)
Record Dataset := mkDataset {
  GetLODLevelCount : Z;
  GetBrickLayout : Z -> Z -> VECTOR3 Z;
  bricks : list (BrickKey * BrickMD)
}.

Definition GetTotalBrickCount (d : Dataset) : Z := Z.of_nat (length (bricks d)).

Record CallPerformer := mkCallPerformer {
  ds : Dataset;
  maxBatchSize : Z
}.

Definition xyz {A} (v : VECTOR3 A) : list A := [x v; y v; z v].

(** ** Collectives

    A communicator is the list of the per-rank copies of one object, indexed
    by rank; all ranks run the same statements in lock step. *)

(** [MPI_Bcast(&member, 1, ...)]: every rank ends with the root's value. *)
Definition MPI_Bcast {X A : Type} (get : X -> A) (set : A -> X -> X)
    (root : nat) (comm : list X) : list X :=
  match comm !! root with
  | Some r => set (get r) <$> comm
  | None => comm
  end.

(** [MPI_Bcast(&buf[0], count, ...)]: the first [count] elements of every
    rank's buffer are overwritten with the root's, the rest of the buffer
    stays.  The call reads [count] elements of the root's array and writes
    [count] elements of every other rank's array, and every rank has to pass
    the same [count]: when a rank's array is shorter than that, or a rank
    passes another count, the outcome is undefined, [None].  As with
    [MPI_Bcast], nothing is transferred when [root] is no rank of the
    communicator. *)
Definition MPI_Bcast_n {X A : Type} (get : X -> list A) (set : list A -> X -> X)
    (count : X -> nat) (root : nat) (comm : list X) : option (list X) :=
  match comm !! root with
  | Some r =>
      if decide (Forall (fun p => count p = count r
                                  /\ (count p <= length (get p))%nat) comm)
      then Some ((fun p => set (take (count p) (get r) ++ drop (count p) (get p)) p)
                 <$> comm)
      else None
  | None => Some comm
  end.

(** Statements between two collectives run on every rank with its own rank. *)
Definition on_each_rank {X : Type} (f : nat -> X -> X) (comm : list X) : list X :=
  imap f comm.

Section Protocol.

(** The numeric values of the enumerators, declared in a header that is not
    among the sources. *)
Variable code_value : NetDSCommandCode -> Z.

(** Unknown commands print a message and yield [NULL].  [ListFilesParams],
    [ShutdownParams] and [RotateParams] are handed [cmd] where the others are
    handed [socket]; for [RotateParams] that argument is its descriptor. *)
Definition createFrom (heap : Storage) (cmd : NetDSCommandCode) (socket : Z)
    (net : gmap Z conn) : option ParameterWrapper * gmap Z conn :=
  match cmd with
  | nds_OPEN =>
      let '(p, net) := OpenParams_new heap socket net in (Some (IsOpenParams p), net)
  | nds_CLOSE =>
      let '(p, net) := CloseParams_new heap socket net in (Some (IsCloseParams p), net)
  | nds_BRICK =>
      let '(p, net) := BrickParams_new heap socket net in (Some (IsBrickParams p), net)
  | nds_LIST_FILES => (Some (IsListFilesParams (ListFilesParams_new cmd)), net)
  | nds_SHUTDOWN => (Some (IsShutdownParams (ShutdownParams_new cmd)), net)
  | nds_ROTATION =>
      let '(p, net) := RotateParams_new heap (code_value cmd) net in
      (Some (IsRotateParams p), net)
  | nds_BATCHSIZE =>
      let '(p, net) := BatchSizeParams_new heap socket net in
      (Some (IsBatchSizeParams p), net)
  | nds_other _ => (None, net)
  end.

(** *** Writing to socket *)

Definition OpenParams_writeToSocket (socket : Z) (this : OpenParams)
    (net : gmap Z conn) : option (gmap Z conn) :=
  let net := wru8 socket (code_value (OpenParams_code this)) net in
  let net := wru16 socket (OpenParams_len this) net in
  wr socket (OpenParams_filename this) (OpenParams_len this) net.

Definition CloseParams_writeToSocket (socket : Z) (this : CloseParams)
    (net : gmap Z conn) : option (gmap Z conn) :=
  let net := wru8 socket (code_value (CloseParams_code this)) net in
  let net := wru16 socket (CloseParams_len this) net in
  wr socket (CloseParams_filename this) (CloseParams_len this) net.

Definition BatchSizeParams_writeToSocket (socket : Z) (this : BatchSizeParams)
    (net : gmap Z conn) : gmap Z conn :=
  let net := wru8 socket (code_value (BatchSizeParams_code this)) net in
  wrsizet socket (BatchSizeParams_newBatchSize this) net.

Definition RotateParams_writeToSocket (socket : Z) (this : RotateParams)
    (net : gmap Z conn) : option (gmap Z conn) :=
  let net := wru8 socket (code_value (RotateParams_code this)) net in
  wrf32v socket (RotateParams_matrix this) 16 net.

Definition BrickParams_writeToSocket (socket : Z) (this : BrickParams)
    (net : gmap Z conn) : gmap Z conn :=
  let net := wru8 socket (code_value (BrickParams_code this)) net in
  let net := wru32 socket (BrickParams_lod this) net in
  wru32 socket (BrickParams_bidx this) net.

Definition SimpleParams_writeToSocket (socket : Z) (this : SimpleParams)
    (net : gmap Z conn) : gmap Z conn :=
  wru8 socket (code_value (SimpleParams_code this)) net.

(** [writeToSocket] through the vtable; [None] when the request hands a
    writer more elements than its array has. *)
Definition writeToSocket (socket : Z) (w : ParameterWrapper)
    (net : gmap Z conn) : option (gmap Z conn) :=
  match w with
  | IsOpenParams p => OpenParams_writeToSocket socket p net
  | IsCloseParams p => CloseParams_writeToSocket socket p net
  | IsBrickParams p => Some (BrickParams_writeToSocket socket p net)
  | IsListFilesParams p => Some (SimpleParams_writeToSocket socket p net)
  | IsShutdownParams p => Some (SimpleParams_writeToSocket socket p net)
  | IsRotateParams p => RotateParams_writeToSocket socket p net
  | IsBatchSizeParams p => Some (BatchSizeParams_writeToSocket socket p net)
  end.

(** [initFromSocket] through the vtable. *)
Definition initFromSocket (heap : Storage) (socket : Z) (w : ParameterWrapper)
    (net : gmap Z conn) : ParameterWrapper * gmap Z conn :=
  match w with
  | IsOpenParams p =>
      let '(p, net) := OpenParams_initFromSocket heap socket p net in (IsOpenParams p, net)
  | IsCloseParams p =>
      let '(p, net) := CloseParams_initFromSocket heap socket p net in (IsCloseParams p, net)
  | IsBrickParams p =>
      let '(p, net) := BrickParams_initFromSocket socket p net in (IsBrickParams p, net)
  | IsListFilesParams p =>
      let '(p, net) := SimpleParams_initFromSocket socket p net in (IsListFilesParams p, net)
  | IsShutdownParams p =>
      let '(p, net) := SimpleParams_initFromSocket socket p net in (IsShutdownParams p, net)
  | IsRotateParams p =>
      let '(p, net) := RotateParams_initFromSocket socket p net in (IsRotateParams p, net)
  | IsBatchSizeParams p =>
      let '(p, net) := BatchSizeParams_initFromSocket socket p net in (IsBatchSizeParams p, net)
  end.

End Protocol.

(** *** MPI syncing *)

Definition OpenParams_mpi_sync (heap : nat -> Storage) (srcRank : nat)
    (comm : list OpenParams) : option (list OpenParams) :=
  let comm :=
    MPI_Bcast OpenParams_len
      (fun v p => mkOpenParams (OpenParams_code p) v (OpenParams_filename p))
      srcRank comm in
  let comm :=
    on_each_rank (fun rank p =>
      if decide (rank <> srcRank)
      then mkOpenParams (OpenParams_code p) (OpenParams_len p)
             (new_char (heap rank) (Z.to_nat (OpenParams_len p)))
      else p) comm in
  MPI_Bcast_n OpenParams_filename
    (fun b p => mkOpenParams (OpenParams_code p) (OpenParams_len p) b)
    (fun p => Z.to_nat (OpenParams_len p)) srcRank comm.

Definition CloseParams_mpi_sync (heap : nat -> Storage) (srcRank : nat)
    (comm : list CloseParams) : option (list CloseParams) :=
  let comm :=
    MPI_Bcast CloseParams_len
      (fun v p => mkCloseParams (CloseParams_code p) v (CloseParams_filename p))
      srcRank comm in
  let comm :=
    on_each_rank (fun rank p =>
      if decide (rank <> srcRank)
      then mkCloseParams (CloseParams_code p) (CloseParams_len p)
             (new_char (heap rank) (Z.to_nat (CloseParams_len p)))
      else p) comm in
  MPI_Bcast_n CloseParams_filename
    (fun b p => mkCloseParams (CloseParams_code p) (CloseParams_len p) b)
    (fun p => Z.to_nat (CloseParams_len p)) srcRank comm.

(** [tmp = (uint32_t)newBatchSize] is computed on every rank, the root's
    [tmp] wins, and every rank stores it back. *)
Definition BatchSizeParams_mpi_sync (srcRank : nat)
    (comm : list BatchSizeParams) : list BatchSizeParams :=
  MPI_Bcast (fun p => uint32_t (BatchSizeParams_newBatchSize p))
    (fun tmp p => mkBatchSizeParams (BatchSizeParams_code p) tmp)
    srcRank comm.

(** No rank allocates [matrix] here: the 16 floats go to whatever array the
    member points to. *)
Definition RotateParams_mpi_sync (srcRank : nat)
    (comm : list RotateParams) : option (list RotateParams) :=
  MPI_Bcast_n RotateParams_matrix
    (fun m p => mkRotateParams (RotateParams_code p) m (RotateParams_matSize p)
                  (RotateParams_type p))
    (fun _ => 16%nat) srcRank comm.

Definition BrickParams_mpi_sync (srcRank : nat)
    (comm : list BrickParams) : list BrickParams :=
  let comm :=
    MPI_Bcast BrickParams_type
      (fun v p => mkBrickParams (BrickParams_code p) v (BrickParams_lod p)
                    (BrickParams_bidx p)) srcRank comm in
  let comm :=
    MPI_Bcast BrickParams_lod
      (fun v p => mkBrickParams (BrickParams_code p) (BrickParams_type p) v
                    (BrickParams_bidx p)) srcRank comm in
  MPI_Bcast BrickParams_bidx
    (fun v p => mkBrickParams (BrickParams_code p) (BrickParams_type p)
                  (BrickParams_lod p) v) srcRank comm.

Definition SimpleParams_mpi_sync (srcRank : nat)
    (comm : list SimpleParams) : list SimpleParams := comm.

(** *** Executing: the OPEN response *)

Section Perform.

(** [CallPerformer::openFile] loads the named dataset into [object->ds]; its
    body is not among the sources. *)
Variable openFile : list Z -> CallPerformer -> CallPerformer.

(** The arrays are variable-length arrays sized by the counts ([size_t]
    products, wrapping at 64 bits) and filled by the loops; [None] when a loop
    runs past the end of one. *)
Definition OpenParams_perform (rank : Z) (socket : Z) (this : OpenParams)
    (object : CallPerformer) (net : gmap Z conn)
    : option (CallPerformer * gmap Z conn) :=
  let object := openFile (OpenParams_filename this) object in
  if negb (rank =? 0) then Some (object, net) else
  (* send LODs *)
  let lodCount := GetLODLevelCount (ds object) in
  let net := wrsizet socket lodCount net in
  (* send layouts *)
  let layoutsCount := wrap 64 (lodCount * 3) in
  layouts ← array_of layoutsCount
    (flat_map (fun lod => xyz (GetBrickLayout (ds object) lod 0)) (seqZ 0 lodCount));
  net ← wru32v socket layouts layoutsCount net;
  (* total count of bricks *)
  let brickCount := GetTotalBrickCount (ds object) in
  let net := wrsizet socket brickCount net in
  (* brick keys and brick metadata *)
  lods ← array_of brickCount ((fun b => key_lod b.1) <$> bricks (ds object));
  idxs ← array_of brickCount ((fun b => key_index b.1) <$> bricks (ds object));
  md_centers ← array_of (wrap 64 (brickCount * 3))
    (flat_map (fun b => xyz (center b.2)) (bricks (ds object)));
  md_extents ← array_of (wrap 64 (brickCount * 3))
    (flat_map (fun b => xyz (extents b.2)) (bricks (ds object)));
  md_n_voxels ← array_of (wrap 64 (brickCount * 3))
    (flat_map (fun b => xyz (n_voxels b.2)) (bricks (ds object)));
  net ← wrsizetv_d socket lods brickCount net;
  net ← wrsizetv_d socket idxs brickCount net;
  net ← wrf32v_d socket md_centers (wrap 64 (brickCount * 3)) net;
  net ← wrf32v_d socket md_extents (wrap 64 (brickCount * 3)) net;
  net ← wru32v_d socket md_n_voxels (wrap 64 (brickCount * 3)) net;
  Some (object, net).

Definition BatchSizeParams_perform (socket : Z) (this : BatchSizeParams)
    (object : CallPerformer) (net : gmap Z conn) : CallPerformer * gmap Z conn :=
  (mkCallPerformer (ds object) (BatchSizeParams_newBatchSize this), net).

End Perform.

(** The OPEN response as the protocol table lists it: [lod_count],
    [brick_layout], [brick_count], [lods], [idxs], [centers], [extents],
    [n_voxels]; counts and indices as big-endian [u32]. *)
Definition OPEN_response_table (d : Dataset) : list Z :=
  let layouts :=
    flat_map (fun lod => xyz (GetBrickLayout d lod 0)) (seqZ 0 (GetLODLevelCount d)) in
  be_bytes 4 (GetLODLevelCount d)
  ++ be32s layouts
  ++ be_bytes 4 (GetTotalBrickCount d)
  ++ be32s ((fun b => key_lod b.1) <$> bricks d)
  ++ be32s ((fun b => key_index b.1) <$> bricks d)
  ++ be32s (flat_map (fun b => xyz (center b.2)) (bricks d))
  ++ be32s (flat_map (fun b => xyz (extents b.2)) (bricks d))
  ++ be32s (flat_map (fun b => xyz (n_voxels b.2)) (bricks d)).

(** ** The external dataset *)

Inductive DataType := DT_UBYTE | DT_BYTE | DT_USHORT | DT_SHORT | DT_FLOAT | DT_DOUBLE.

Record VariantArray := mkVariantArray {
  va_type : DataType;
  va_data : list Z
}.

(** [brick_md] is the brick table inherited from [BrickedDataset];
    [m_pHist1D] the 1-D histogram inherited from [Dataset], [None] while no
    valid histogram is cached. *)
Record ExternalDataset := mkExternalDataset {
  brick_md : gmap BrickKey BrickMD;
  m_pHist1D : option (list Z);
  m_Data : gmap BrickKey VariantArray;
  m_fMaxMagnitude : Z;
  m_vDomainSize : VECTOR3 Z;
  m_DataRange : Z * Z
}.

(** Modelled from the spec: [BrickedDataset::GetBrickMetadata] is not among
    the sources; [brick_metadata(key)] fails with [NotFound] if the key is
    unknown. *)
Definition GetBrickMetadata (bk : BrickKey) (this : ExternalDataset) : option BrickMD :=
  brick_md this !! bk.

Definition ExternalDataset_GetBrickOverlapSize (this : ExternalDataset) : VECTOR3 Z :=
  Vec3 1 1 1.

(** [voxels[i]-1] is computed on [unsigned int] and widened to 64 bits. *)
Definition ExternalDataset_GetEffectiveBrickSize (bk : BrickKey)
    (this : ExternalDataset) : option (VECTOR3 Z) :=
  match GetBrickMetadata bk this with
  | Some md =>
      let voxels := n_voxels md in
      Some (Vec3 (uint32_t (x voxels - 1)) (uint32_t (y voxels - 1))
                 (uint32_t (z voxels - 1)))
  | None => None
  end.

Definition ExternalDataset_GetLODLevelCount (this : ExternalDataset) : Z := 1.

(** [WARNING(...)] appends to the controller's debug output. *)
Definition ExternalDataset_GetComponentCount (this : ExternalDataset)
    (debugOut : list string) : Z * list string :=
  (1, debugOut ++ ["Assuming single-component data."%string]).

Definition ExternalDataset_GetDomainSize (this : ExternalDataset) : VECTOR3 Z :=
  m_vDomainSize this.

Definition ExternalDataset_SetDomainSize (x y z : Z) (this : ExternalDataset)
    : ExternalDataset :=
  mkExternalDataset (brick_md this) (m_pHist1D this) (m_Data this)
    (m_fMaxMagnitude this) (Vec3 x y z) (m_DataRange this).

(** What the contract asks of [effective_brick_size]: [n_voxels - overlap]
    on each axis, the overlap of a face being 1 when the face is internal and
    0 when it lies on the domain boundary. *)
Definition face_overlap (internal : bool) : Z := if internal then 1 else 0.

Definition effective_brick_size_contract (n : VECTOR3 Z) (internal : VECTOR3 bool)
    : VECTOR3 Z :=
  Vec3 (x n - face_overlap (x internal)) (y n - face_overlap (y internal))
       (z n - face_overlap (z internal)).

(** *** The histogram cache *)

Section Histogram.

(** The implicit histogram of the current brick set; its computation is not
    among the sources. *)
Variable Recalculate1DHistogram : gmap BrickKey VariantArray -> list Z.

(** Modelled from the spec: the bodies of [SetHistogram], [AddBrick],
    [UpdateData], [Clear] and [SetRange] ([ExternalDataset.cpp]) are not among
    the sources.  A supplied histogram is cached; every write operation
    ([add_brick], [update_data], [clear], [set_range]) invalidates the cached
    histogram; a request recomputes lazily from the current brick set when
    nothing valid is cached, and caches the result. *)
Definition SetHistogram (h : list Z) (this : ExternalDataset) : ExternalDataset :=
  mkExternalDataset (brick_md this) (Some h) (m_Data this)
    (m_fMaxMagnitude this) (m_vDomainSize this) (m_DataRange this).

(** Modelled from the spec: [add_brick] stores metadata and payload under the
    key and invalidates the histogram. *)
Definition AddBrick (bk : BrickKey) (md : BrickMD) (data : VariantArray)
    (this : ExternalDataset) : ExternalDataset :=
  mkExternalDataset (<[bk := md]> (brick_md this)) None (<[bk := data]> (m_Data this))
    (m_fMaxMagnitude this) (m_vDomainSize this) (m_DataRange this).

(** Modelled from the spec: [update_data] replaces the payload of an existing
    brick and invalidates the histogram. *)
Definition UpdateData (bk : BrickKey) (data : VariantArray)
    (this : ExternalDataset) : ExternalDataset :=
  mkExternalDataset (brick_md this) None
    (match m_Data this !! bk with
     | Some _ => <[bk := data]> (m_Data this)
     | None => m_Data this
     end)
    (m_fMaxMagnitude this) (m_vDomainSize this) (m_DataRange this).

(** Modelled from the spec: [clear] drops every brick and invalidates the
    histogram. *)
Definition Clear (this : ExternalDataset) : ExternalDataset :=
  mkExternalDataset ∅ None ∅
    (m_fMaxMagnitude this) (m_vDomainSize this) (m_DataRange this).

(** Modelled from the spec: [set_range] stores the range and invalidates the
    histogram. *)
Definition SetRange (low high : Z) (this : ExternalDataset) : ExternalDataset :=
  mkExternalDataset (brick_md this) None (m_Data this)
    (m_fMaxMagnitude this) (m_vDomainSize this) (low, high).

(** Modelled from the spec: [histogram()] answers from the cache, or
    recomputes and caches. *)
Definition Get1DHistogram (this : ExternalDataset) : list Z * ExternalDataset :=
  match m_pHist1D this with
  | Some h => (h, this)
  | None =>
      let h := Recalculate1DHistogram (m_Data this) in
      (h, mkExternalDataset (brick_md this) (Some h) (m_Data this)
            (m_fMaxMagnitude this) (m_vDomainSize this) (m_DataRange this))
  end.

(** The write operations of the store. *)
Inductive write_op :=
| op_add_brick (bk : BrickKey) (md : BrickMD) (data : VariantArray)
| op_update_data (bk : BrickKey) (data : VariantArray)
| op_clear
| op_set_range (low high : Z).

Definition write (w : write_op) (this : ExternalDataset) : ExternalDataset :=
  match w with
  | op_add_brick bk md data => AddBrick bk md data this
  | op_update_data bk data => UpdateData bk data this
  | op_clear => Clear this
  | op_set_range low high => SetRange low high this
  end.

(** [n] histogram requests in a row; the state after the last one. *)
Fixpoint requests (n : nat) (this : ExternalDataset) : ExternalDataset :=
  match n with
  | O => this
  | S k => requests k (Get1DHistogram this).2
  end.

End Histogram.

(** ** The 2-D slice based volume renderer *)

(** Single-precision arithmetic is used through this interface only; the
    development never looks inside a [float]. *)
Class FloatOps (F : Type) := {
  f_one : F;                 (* 1.0f *)
  f_sqrt2 : F;               (* sqrt(2.0) *)
  f_of_uint : Z -> F;        (* conversion of an unsigned integer *)
  f_div : F -> F -> F;
  f_mul : F -> F -> F;
  f_max : F -> F -> F
}.

(** Floating-point terms left unevaluated: the free instance. *)
Inductive fexpr :=
| FOne
| FSqrt2
| FOfUInt (n : Z)
| FDiv (a b : fexpr)
| FMul (a b : fexpr)
| FMax (a b : fexpr).

#[export] Instance fexpr_ops : FloatOps fexpr := {
  f_one := FOne;
  f_sqrt2 := FSqrt2;
  f_of_uint := FOfUInt;
  f_div := FDiv;
  f_mul := FMul;
  f_max := FMax
}.

Inductive ERenderMode := RM_1DTRANS | RM_2DTRANS | RM_ISOSURFACE | RM_INVALID.

Inductive BlendFactor := GL_ZERO | GL_ONE | GL_ONE_MINUS_DST_ALPHA.
Inductive BlendEquation := GL_FUNC_ADD | GL_MIN | GL_MAX.

Record GLState := mkGLState {
  GL_BLEND : bool;
  GL_DEPTH_TEST : bool;
  blend_sfactor : BlendFactor;
  blend_dfactor : BlendFactor;
  blend_equation : BlendEquation
}.

Definition glEnable_BLEND (g : GLState) : GLState :=
  mkGLState true (GL_DEPTH_TEST g) (blend_sfactor g) (blend_dfactor g) (blend_equation g).
Definition glDisable_BLEND (g : GLState) : GLState :=
  mkGLState false (GL_DEPTH_TEST g) (blend_sfactor g) (blend_dfactor g) (blend_equation g).
Definition glEnable_DEPTH_TEST (g : GLState) : GLState :=
  mkGLState (GL_BLEND g) true (blend_sfactor g) (blend_dfactor g) (blend_equation g).
Definition glDisable_DEPTH_TEST (g : GLState) : GLState :=
  mkGLState (GL_BLEND g) false (blend_sfactor g) (blend_dfactor g) (blend_equation g).
Definition glBlendFunc (s d : BlendFactor) (g : GLState) : GLState :=
  mkGLState (GL_BLEND g) (GL_DEPTH_TEST g) s d (blend_equation g).
Definition glBlendEquation (e : BlendEquation) (g : GLState) : GLState :=
  mkGLState (GL_BLEND g) (GL_DEPTH_TEST g) (blend_sfactor g) (blend_dfactor g) e.

(** The shader programs of [GLSBVR2D]; the two transfer-function programs
    come unlit ([false], index 0) and lit ([true], index 1). *)
Inductive Program :=
| m_pProgram1DTrans (lit : bool)
| m_pProgram2DTrans (lit : bool)
| m_pProgramHQMIPRot
| m_pProgramIso
| m_pProgramColor
| m_pProgramIsoNoCompose
| m_pProgramColorNoCompose.

#[export] Instance Program_eq_dec : EqDecision Program.
Proof. solve_decision. Defined.

Inductive Texture := m_p1DTransTex | m_p2DTransTex.

Inductive Uniform (F : Type) :=
| Uniform1 (a : F)
| Uniform3 (a b c : F).
Arguments Uniform1 {F} _.
Arguments Uniform3 {F} _ _ _.

(** The slice generator, as far as the pre-loop code configures it. *)
Record SBVRGeogen2D (F : Type) := mkGeogen {
  samplingModifier : F;
  clipPlaneEnabled : bool;
  lodData : VECTOR3 Z
}.
Arguments mkGeogen {F} _ _ _.
Arguments samplingModifier {F} _.
Arguments clipPlaneEnabled {F} _.
Arguments lodData {F} _.

Record Brick := mkBrick {
  vVoxelCount : VECTOR3 Z
}.

Record GLSBVR2D (F : Type) := mkGLSBVR2D {
  m_eRenderMode : ERenderMode;
  m_bUseLighting : bool;
  m_bAvoidSeperateCompositing : bool;
  m_bClipPlaneOn : bool;
  m_bDecreaseSamplingRateNow : bool;
  m_fSampleRateModifier : F;
  m_fSampleDecFactor : F;
  m_iCurrentLOD : Z;
  (* m_pDataset *)
  dataset_GetComponentCount : Z;
  dataset_GetDomainSize : Z -> VECTOR3 Z;
  (* GPU side *)
  gl : GLState;
  current_program : option Program;
  texture_unit1 : option Texture;
  uniforms : Program -> string -> option (Uniform F);
  m_SBVRGeogen : SBVRGeogen2D F;
  errors : list string
}.
Arguments mkGLSBVR2D {F} _ _ _ _ _ _ _ _ _ _ _ _ _ _ _ _.
Arguments m_eRenderMode {F} _.
Arguments m_bUseLighting {F} _.
Arguments m_bAvoidSeperateCompositing {F} _.
Arguments m_bClipPlaneOn {F} _.
Arguments m_bDecreaseSamplingRateNow {F} _.
Arguments m_fSampleRateModifier {F} _.
Arguments m_fSampleDecFactor {F} _.
Arguments m_iCurrentLOD {F} _.
Arguments dataset_GetComponentCount {F} _.
Arguments dataset_GetDomainSize {F} _ _.
Arguments gl {F} _.
Arguments current_program {F} _.
Arguments texture_unit1 {F} _.
Arguments uniforms {F} _ _ _.
Arguments m_SBVRGeogen {F} _.
Arguments errors {F} _.

Section Renderer.

Context {F : Type} {ops : FloatOps F}.

Definition with_gl (f : GLState -> GLState) (r : GLSBVR2D F) : GLSBVR2D F :=
  mkGLSBVR2D (m_eRenderMode r) (m_bUseLighting r) (m_bAvoidSeperateCompositing r)
    (m_bClipPlaneOn r) (m_bDecreaseSamplingRateNow r) (m_fSampleRateModifier r)
    (m_fSampleDecFactor r) (m_iCurrentLOD r) (dataset_GetComponentCount r)
    (dataset_GetDomainSize r) (f (gl r)) (current_program r) (texture_unit1 r)
    (uniforms r) (m_SBVRGeogen r) (errors r).

Definition with_geogen (f : SBVRGeogen2D F -> SBVRGeogen2D F) (r : GLSBVR2D F)
    : GLSBVR2D F :=
  mkGLSBVR2D (m_eRenderMode r) (m_bUseLighting r) (m_bAvoidSeperateCompositing r)
    (m_bClipPlaneOn r) (m_bDecreaseSamplingRateNow r) (m_fSampleRateModifier r)
    (m_fSampleDecFactor r) (m_iCurrentLOD r) (dataset_GetComponentCount r)
    (dataset_GetDomainSize r) (gl r) (current_program r) (texture_unit1 r)
    (uniforms r) (f (m_SBVRGeogen r)) (errors r).

(** [tex->Bind(1)] *)
Definition Bind1 (t : Texture) (r : GLSBVR2D F) : GLSBVR2D F :=
  mkGLSBVR2D (m_eRenderMode r) (m_bUseLighting r) (m_bAvoidSeperateCompositing r)
    (m_bClipPlaneOn r) (m_bDecreaseSamplingRateNow r) (m_fSampleRateModifier r)
    (m_fSampleDecFactor r) (m_iCurrentLOD r) (dataset_GetComponentCount r)
    (dataset_GetDomainSize r) (gl r) (current_program r) (Some t)
    (uniforms r) (m_SBVRGeogen r) (errors r).

(** [shader->Enable()] *)
Definition Enable (p : Program) (r : GLSBVR2D F) : GLSBVR2D F :=
  mkGLSBVR2D (m_eRenderMode r) (m_bUseLighting r) (m_bAvoidSeperateCompositing r)
    (m_bClipPlaneOn r) (m_bDecreaseSamplingRateNow r) (m_fSampleRateModifier r)
    (m_fSampleDecFactor r) (m_iCurrentLOD r) (dataset_GetComponentCount r)
    (dataset_GetDomainSize r) (gl r) (Some p) (texture_unit1 r)
    (uniforms r) (m_SBVRGeogen r) (errors r).

(** [shader->SetUniformVector(name, ...)] *)
Definition SetUniformVector (p : Program) (name : string) (v : Uniform F)
    (r : GLSBVR2D F) : GLSBVR2D F :=
  mkGLSBVR2D (m_eRenderMode r) (m_bUseLighting r) (m_bAvoidSeperateCompositing r)
    (m_bClipPlaneOn r) (m_bDecreaseSamplingRateNow r) (m_fSampleRateModifier r)
    (m_fSampleDecFactor r) (m_iCurrentLOD r) (dataset_GetComponentCount r)
    (dataset_GetDomainSize r) (gl r) (current_program r) (texture_unit1 r)
    (fun q n => if decide (q = p /\ n = name) then Some v else uniforms r q n)
    (m_SBVRGeogen r) (errors r).

Definition T_ERROR (msg : string) (r : GLSBVR2D F) : GLSBVR2D F :=
  mkGLSBVR2D (m_eRenderMode r) (m_bUseLighting r) (m_bAvoidSeperateCompositing r)
    (m_bClipPlaneOn r) (m_bDecreaseSamplingRateNow r) (m_fSampleRateModifier r)
    (m_fSampleDecFactor r) (m_iCurrentLOD r) (dataset_GetComponentCount r)
    (dataset_GetDomainSize r) (gl r) (current_program r) (texture_unit1 r)
    (uniforms r) (m_SBVRGeogen r) (errors r ++ [msg]).

(** [FLOATVECTOR3(v)] of an integer vector, the component-wise quotient and
    [maxVal]. *)
Definition FLOATVECTOR3_of (v : VECTOR3 Z) : VECTOR3 F :=
  Vec3 (f_of_uint (x v)) (f_of_uint (y v)) (f_of_uint (z v)).

Definition vec_div (a b : VECTOR3 F) : VECTOR3 F :=
  Vec3 (f_div (x a) (x b)) (f_div (y a) (y b)) (f_div (z a) (z b)).

Definition maxVal (v : VECTOR3 F) : F := f_max (x v) (f_max (y v) (z v)).

(** The sampling rate in force: halved or so while the renderer is asked to
    decrease it. *)
Definition effective_sample_rate (r : GLSBVR2D F) : F :=
  f_div (m_fSampleRateModifier r)
        (if m_bDecreaseSamplingRateNow r then m_fSampleDecFactor r else f_one).

Definition vStep (currentBrick : Brick) : VECTOR3 F :=
  Vec3 (f_div f_one (f_of_uint (x (vVoxelCount currentBrick))))
       (f_div f_one (f_of_uint (y (vVoxelCount currentBrick))))
       (f_div f_one (f_of_uint (z (vVoxelCount currentBrick)))).

Definition fStepScale (r : GLSBVR2D F) : F :=
  f_mul (f_div f_sqrt2 (effective_sample_rate r))
        (maxVal (vec_div (FLOATVECTOR3_of (dataset_GetDomainSize r 0))
                         (FLOATVECTOR3_of (dataset_GetDomainSize r (m_iCurrentLOD r))))).

Definition SetBrickDepShaderVars (currentBrick : Brick) (r : GLSBVR2D F)
    : GLSBVR2D F :=
  let vStep := vStep currentBrick in
  let fStepScale := fStepScale r in
  match m_eRenderMode r with
  | RM_1DTRANS =>
      let shader := m_pProgram1DTrans (m_bUseLighting r) in
      let r := SetUniformVector shader "fStepScale" (Uniform1 fStepScale) r in
      if m_bUseLighting r
      then SetUniformVector (m_pProgram1DTrans true) "vVoxelStepsize"
             (Uniform3 (x vStep) (y vStep) (z vStep)) r
      else r
  | RM_2DTRANS =>
      let shader := m_pProgram2DTrans (m_bUseLighting r) in
      let r := SetUniformVector shader "fStepScale" (Uniform1 fStepScale) r in
      SetUniformVector shader "vVoxelStepsize"
        (Uniform3 (x vStep) (y vStep) (z vStep)) r
  | RM_ISOSURFACE =>
      let shader :=
        if m_bAvoidSeperateCompositing r
        then (if dataset_GetComponentCount r =? 1
              then m_pProgramIsoNoCompose else m_pProgramColorNoCompose)
        else (if dataset_GetComponentCount r =? 1
              then m_pProgramIso else m_pProgramColor) in
      SetUniformVector shader "vVoxelStepsize"
        (Uniform3 (x vStep) (y vStep) (z vStep)) r
  | RM_INVALID => T_ERROR "Invalid rendermode set" r
  end.

(** [UINTVECTOR3(v)] of a 64-bit vector: each component is narrowed to 32
    bits. *)
Definition UINTVECTOR3_of (v : VECTOR3 Z) : VECTOR3 Z :=
  Vec3 (uint32_t (x v)) (uint32_t (y v)) (uint32_t (z v)).

(** The clip plane itself ([SetClipPlane]) is geometry and is left out. *)
Definition Render3DPreLoop (r : GLSBVR2D F) : GLSBVR2D F :=
  let r := with_geogen (fun g =>
             mkGeogen (effective_sample_rate r) (clipPlaneEnabled g) (lodData g)) r in
  let r := with_geogen (fun g =>
             mkGeogen (samplingModifier g) (m_bClipPlaneOn r) (lodData g)) r in
  let r :=
    match m_eRenderMode r with
    | RM_1DTRANS =>
        let r := Bind1 m_p1DTransTex r in
        let r := Enable (m_pProgram1DTrans (m_bUseLighting r)) r in
        let r := with_gl glEnable_BLEND r in
        with_gl (glBlendFunc GL_ONE_MINUS_DST_ALPHA GL_ONE) r
    | RM_2DTRANS =>
        let r := Bind1 m_p2DTransTex r in
        let r := Enable (m_pProgram2DTrans (m_bUseLighting r)) r in
        let r := with_gl glEnable_BLEND r in
        with_gl (glBlendFunc GL_ONE_MINUS_DST_ALPHA GL_ONE) r
    | RM_ISOSURFACE =>
        if m_bAvoidSeperateCompositing r then
          let r :=
            if dataset_GetComponentCount r =? 1
            then Enable m_pProgramIsoNoCompose r
            else Enable m_pProgramColorNoCompose r in
          let r := with_gl glEnable_BLEND r in
          with_gl (glBlendFunc GL_ONE_MINUS_DST_ALPHA GL_ONE) r
        else with_gl glEnable_DEPTH_TEST r
    | RM_INVALID => T_ERROR "Invalid rendermode set" r
    end in
  with_geogen (fun g =>
    mkGeogen (samplingModifier g) (clipPlaneEnabled g)
      (UINTVECTOR3_of (dataset_GetDomainSize r (m_iCurrentLOD r)))) r.

(** [GLRenderer::RenderHQMIPPreLoop], the parent's part, is not among the
    sources; it may leave the renderer in any state. *)
Variable RenderRegion2D : Type.
Variable GLRenderer_RenderHQMIPPreLoop : RenderRegion2D -> GLSBVR2D F -> GLSBVR2D F.

Definition RenderHQMIPPreLoop (region : RenderRegion2D) (r : GLSBVR2D F)
    : GLSBVR2D F :=
  let r := GLRenderer_RenderHQMIPPreLoop region r in
  let r := Enable m_pProgramHQMIPRot r in
  let r := with_gl (glBlendFunc GL_ONE GL_ONE) r in
  let r := with_gl (glBlendEquation GL_MAX) r in
  let r := with_gl glEnable_BLEND r in
  with_gl glDisable_DEPTH_TEST r.

End Renderer.

(** ** Fixtures: what travels, and concrete requests, datasets and renderers *)

(** The bytes a writer puts on a fresh connection, descriptor 0; [None]
    when the write has no defined outcome. *)
Definition sent (writer : Z -> gmap Z conn -> option (gmap Z conn))
    : option (list Z) :=
  net ← writer 0 {[ 0 := Conn [] [] ]};
  tx <$> net !! 0.

(** A table whose only connection, descriptor 0, has [bytes] waiting. *)
Definition arriving (bytes : list Z) : gmap Z conn := {[ 0 := Conn bytes [] ]}.

(** Write [R], let the dispatcher consume the command byte, then let [this]
    read its members from what is left; [None] when the write has no defined
    outcome. *)
Definition write_then_read (code_value : NetDSCommandCode -> Z) (heap : Storage)
    (R this : ParameterWrapper) : option ParameterWrapper :=
  bytes ← sent (fun fd => writeToSocket code_value fd R);
  Some (initFromSocket heap 0 this (arriving (drop 1 bytes))).1.

(** 1.0f and 0.0f as bit patterns, and the identity matrix. *)
Definition f32_one : Z := 1065353216.
Definition f32_zero : Z := 0.

Definition identity_matrix : list Z :=
  [f32_one; f32_zero; f32_zero; f32_zero;
   f32_zero; f32_one; f32_zero; f32_zero;
   f32_zero; f32_zero; f32_one; f32_zero;
   f32_zero; f32_zero; f32_zero; f32_one].

(** BRICK with [type = N_UINT8], [lod = 1], [bidx = 2]. *)
Definition brick_request : BrickParams := mkBrickParams nds_BRICK 0 1 2.

(** ROTATION with the identity matrix and [type = N_UINT16]. *)
Definition rotate_request : RotateParams :=
  mkRotateParams nds_ROTATION identity_matrix 16 1.

(** A worker's ROTATION object before the sync: [matrix] points to an array
    of 16 floats, all zero, and [type] is 0. *)
Definition rotate_worker : RotateParams :=
  mkRotateParams nds_ROTATION (replicate 16 f32_zero) 16 0.

(** A worker whose [matrix] points to no float at all. *)
Definition rotate_worker_unallocated : RotateParams :=
  mkRotateParams nds_ROTATION [] 0 0.

(** One numbering of the commands, for running the model. *)
Definition numbering (c : NetDSCommandCode) : Z :=
  match c with
  | nds_OPEN => 0
  | nds_CLOSE => 1
  | nds_BRICK => 2
  | nds_LIST_FILES => 3
  | nds_SHUTDOWN => 4
  | nds_ROTATION => 5
  | nds_BATCHSIZE => 6
  | nds_other v => v
  end.

Definition zeroed : Storage :=
  mkStorage (mkOpenParams nds_OPEN 0 []) (mkCloseParams nds_CLOSE 0 [])
    (mkBatchSizeParams nds_BATCHSIZE 0) (mkRotateParams nds_ROTATION [] 0 0)
    (mkBrickParams nds_BRICK 0 0 0) (fun _ => 0).

(** Two connections: descriptor 0 with three bytes waiting, and descriptor 5
    with the body of a ROTATION request (the identity matrix and
    [type = N_UINT16]) followed by one more byte. *)
Definition rotation_waiting_on_5 : gmap Z conn :=
  <[ 5 := Conn (be_bytes 4 16 ++ be32s identity_matrix ++ be_bytes 1 1 ++ [7]) [] ]>
    (arriving [1; 2; 3]).

(** A dataset of one brick of 4x4x4 voxels: each of its faces lies on the
    domain boundary. *)
Definition lone_brick : BrickMD :=
  mkBrickMD (Vec3 f32_zero f32_zero f32_zero) (Vec3 f32_one f32_one f32_one) (Vec3 4 4 4).

Definition single_brick_dataset : ExternalDataset :=
  mkExternalDataset {[ (0, 0, 0) := lone_brick ]} None ∅ 0 (Vec3 4 4 4) (0, 0).

(** Two levels of detail with layouts (2,2,2) and (1,1,1), nine bricks. *)
Definition two_lod_dataset : Dataset :=
  mkDataset 2
    (fun lod _ => if lod =? 0 then Vec3 2 2 2 else Vec3 1 1 1)
    (((fun i => ((0, 0, i), lone_brick)) <$> seqZ 0 8) ++ [((0, 1, 0), lone_brick)]).

Definition open_two_lod (filename : list Z) (object : CallPerformer) : CallPerformer :=
  mkCallPerformer two_lod_dataset (maxBatchSize object).

Definition no_dataset : Dataset := mkDataset 0 (fun _ _ => Vec3 0 0 0) [].

Definition idle_performer : CallPerformer := mkCallPerformer no_dataset 0.

Definition open_request : OpenParams := mkOpenParams nds_OPEN 1 [97].

(** A renderer in isosurface mode with no uniform set yet. *)
Definition iso_renderer : GLSBVR2D fexpr :=
  mkGLSBVR2D RM_ISOSURFACE false false false false FOne FOne 0 1
    (fun _ => Vec3 4 4 4)
    (mkGLState false false GL_ONE GL_ZERO GL_FUNC_ADD) None None
    (fun _ _ => None) (mkGeogen FOne false (Vec3 4 4 4)) [].

Definition brick_4x4x4 : Brick := mkBrick (Vec3 4 4 4).

(** The uniforms a brick is said to get in every render mode: both
    [fStepScale] and [vVoxelStepsize], on some program. *)
Definition sets_both_uniforms {F : Type} {ops : FloatOps F}
    (b : Brick) (r : GLSBVR2D F) : Prop :=
  let r' := SetBrickDepShaderVars b r in
  (exists p, uniforms r' p "fStepScale"%string = Some (Uniform1 (fStepScale r)))
  /\ (exists p, uniforms r' p "vVoxelStepsize"%string =
                Some (Uniform3 (x (vStep b)) (y (vStep b)) (z (vStep b)))).

(** The program that is active for a brick in isosurface mode. *)
Definition isosurface_shader {F : Type} (r : GLSBVR2D F) : Program :=
  if m_bAvoidSeperateCompositing r
  then (if dataset_GetComponentCount r =? 1
        then m_pProgramIsoNoCompose else m_pProgramColorNoCompose)
  else (if dataset_GetComponentCount r =? 1
        then m_pProgramIso else m_pProgramColor).

(** ** The remaining commands of the server *)

Record VECTOR4 (A : Type) := Vec4 { v4x : A; v4y : A; v4z : A; v4w : A }.
Arguments Vec4 {A} _ _ _ _.
Arguments v4x {A} _.
Arguments v4y {A} _.
Arguments v4z {A} _.
Arguments v4w {A} _.

(** The brick senders are templates over the element type and live in the
    header; a [perform] is described by the call it makes to them. *)
Inductive BrickSend :=
| startBrickSendLoop (T : NetDataType) (socket : Z) (allKeys : list BrickKey)
| internal_brickPerform (T : NetDataType) (socket : Z) (this : BrickParams).

Section PerformMore.

(** Members of [CallPerformer], the renderer and the dataset whose bodies are
    not among the sources.  [GetNeededBricks] is [None] when the renderer is
    not a [GLGridLeaper], which the code asserts against. *)
Variable rotate : list Z -> CallPerformer -> CallPerformer.
Variable closeFile : list Z -> CallPerformer -> CallPerformer.
Variable listFiles : CallPerformer -> list (list Z).
Variable GetNeededBricks : CallPerformer -> option (list (VECTOR4 Z)).
Variable IndexFrom4D : Dataset -> VECTOR4 Z -> Z -> BrickKey.

(** Modelled from the spec: [wrCStr] is not among the sources; it appends the
    wire image of one string, whatever that image is. *)
Variable cstr_image : list Z -> list Z.

Definition wrCStr (fd : Z) (cstr : list Z) : gmap Z conn -> gmap Z conn :=
  send fd (cstr_image cstr).

Definition CloseParams_perform (socket : Z) (this : CloseParams)
    (object : CallPerformer) (net : gmap Z conn) : CallPerformer * gmap Z conn :=
  (closeFile (CloseParams_filename this) object, net).

(** [std::vector<BrickKey> allKeys(totalBrickCount)] starts with
    [totalBrickCount] value-initialised keys; the loop then appends one key
    per needed brick with [push_back]. *)
Definition RotateParams_allKeys (d : Dataset) (hash : list (VECTOR4 Z)) : list BrickKey :=
  fold_left (fun allKeys b => allKeys ++ [IndexFrom4D d b 0]) hash
    (replicate (length hash) (0, 0, 0)).

(** [None]: the assertion on the renderer fails. *)
Definition RotateParams_perform (rank : Z) (socket : Z) (this : RotateParams)
    (object : CallPerformer) : option (CallPerformer * option BrickSend) :=
  if negb (rank =? 0) then Some (object, None) else
  (* renders the scene *)
  let object := rotate (RotateParams_matrix this) object in
  match GetNeededBricks object with
  | None => None
  | Some hash =>
      let allKeys := RotateParams_allKeys (ds object) hash in
      match NetDataType_of (RotateParams_type this) with
      | Some T => Some (object, Some (startBrickSendLoop T socket allKeys))
      | None => Some (object, None)
      end
  end.

Definition BrickParams_perform (rank : Z) (socket : Z) (this : BrickParams)
    : option BrickSend :=
  if rank =? 0 then
    match NetDataType_of (BrickParams_type this) with
    | Some T => Some (internal_brickPerform T socket this)
    | None => None
    end
  else None.

Definition ListFilesParams_perform (rank : Z) (socket : Z)
    (object : CallPerformer) (net : gmap Z conn) : gmap Z conn :=
  if rank =? 0 then
    let filenames := listFiles object in
    let net := wru16 socket (uint16_t (Z.of_nat (length filenames))) net in
    fold_left (fun net name => wrCStr socket name net) filenames net
  else net.

Definition ShutdownParams_perform (socket : Z) (object : CallPerformer)
    (net : gmap Z conn) : CallPerformer * gmap Z conn :=
  (object, net).

End PerformMore.

(** Fixtures for the commands above. *)
Definition close_request : CloseParams := mkCloseParams nds_CLOSE 1 [97].

Definition two_ranks_brick : list BrickParams :=
  [brick_request; mkBrickParams nds_BRICK 7 8 9].

Definition two_ranks_open : list OpenParams :=
  [open_request; mkOpenParams nds_OPEN 5 [1; 2]].

Definition two_ranks_close : list CloseParams :=
  [close_request; mkCloseParams nds_CLOSE 5 [1; 2]].

Definition two_ranks_batch : list BatchSizeParams :=
  [mkBatchSizeParams nds_BATCHSIZE 4294967301; mkBatchSizeParams nds_BATCHSIZE 0].

Definition needs_two_bricks (object : CallPerformer) : option (list (VECTOR4 Z)) :=
  Some [Vec4 0 0 0 0; Vec4 1 0 0 0].

Definition linear_index (d : Dataset) (b : VECTOR4 Z) (timestep : Z) : BrickKey :=
  (timestep, v4w b, v4x b).

(** ** The external dataset: data type queries *)

(** [m_Data.begin()]: the brick a traversal of the table meets first.  A
    hash table leaves that order open; the model takes the order of
    [map_to_list]. *)
Definition DataTable_begin (this : ExternalDataset) : option (BrickKey * VariantArray) :=
  head (map_to_list (m_Data this)).

(** [None]: [assert(!this->m_Data.empty())] fails. *)
Definition ExternalDataset_GetBitWidth (this : ExternalDataset) : option Z :=
  match DataTable_begin this with
  | None => None
  | Some iter =>
      Some (match va_type iter.2 with
            | DT_UBYTE => 8
            | DT_BYTE => 8
            | DT_USHORT => 16
            | DT_SHORT => 16
            | DT_FLOAT => 32
            | DT_DOUBLE => 64
            end)
  end.

Definition ExternalDataset_GetIsSigned (this : ExternalDataset) : option bool :=
  match DataTable_begin this with
  | None => None
  | Some iter =>
      Some (match va_type iter.2 with
            | DT_UBYTE => false
            | DT_BYTE => true
            | DT_USHORT => false
            | DT_SHORT => true
            | DT_FLOAT => true
            | DT_DOUBLE => true
            end)
  end.

Definition DataType_eqb (a b : DataType) : bool :=
  match a, b with
  | DT_UBYTE, DT_UBYTE | DT_BYTE, DT_BYTE | DT_USHORT, DT_USHORT
  | DT_SHORT, DT_SHORT | DT_FLOAT, DT_FLOAT | DT_DOUBLE, DT_DOUBLE => true
  | _, _ => false
  end.

Definition ExternalDataset_GetIsFloat (this : ExternalDataset) : option bool :=
  match DataTable_begin this with
  | None => None
  | Some iter =>
      Some (DataType_eqb (va_type iter.2) DT_FLOAT
            || DataType_eqb (va_type iter.2) DT_DOUBLE)
  end.

Definition ExternalDataset_IsSameEndianness (this : ExternalDataset) : bool := true.

(** A data table of one brick of unsigned shorts. *)
Definition ushort_dataset : ExternalDataset :=
  mkExternalDataset {[ (0, 0, 0) := lone_brick ]} None
    {[ (0, 0, 0) := mkVariantArray DT_USHORT [1; 2; 3] ]} 0 (Vec3 4 4 4) (0, 0).

(** A renderer showing [single_brick_dataset] in 1-D mode at level 3. *)
Definition external_renderer : GLSBVR2D fexpr :=
  mkGLSBVR2D RM_1DTRANS false false false false FOne FOne 3 1
    (fun _ => ExternalDataset_GetDomainSize single_brick_dataset)
    (mkGLState false false GL_ONE GL_ZERO GL_FUNC_ADD) None None
    (fun _ _ => None) (mkGeogen FOne false (Vec3 4 4 4)) [].

(** ** The renderer: proxy geometry, post-loop and shader parameters *)

Inductive ESliceDirection := DIRECTION_X | DIRECTION_Y | DIRECTION_Z.

Record POS3TEX3_VERTEX (F : Type) := mkVertex {
  m_vPos : VECTOR3 F;
  m_vTex : VECTOR3 F
}.
Arguments mkVertex {F} _ _.
Arguments m_vPos {F} _.
Arguments m_vTex {F} _.

(** The slice stacks of the generator and the order to draw them in
    ([m_vSliceTrianglesOrder[0..2]]). *)
Record SliceTriangles (F : Type) := mkSliceTriangles {
  m_vSliceTrianglesOrder : ESliceDirection * ESliceDirection * ESliceDirection;
  m_vSliceTrianglesX : list (POS3TEX3_VERTEX F);
  m_vSliceTrianglesY : list (POS3TEX3_VERTEX F);
  m_vSliceTrianglesZ : list (POS3TEX3_VERTEX F)
}.
Arguments mkSliceTriangles {F} _ _ _ _.
Arguments m_vSliceTrianglesOrder {F} _.
Arguments m_vSliceTrianglesX {F} _.
Arguments m_vSliceTrianglesY {F} _.
Arguments m_vSliceTrianglesZ {F} _.

(** Immediate-mode calls. *)
Inductive GLCommand (F : Type) :=
| glBegin_TRIANGLES
| glTexCoord3f (s t r : F)
| glVertex3f (x y z : F)
| glEnd.
Arguments glBegin_TRIANGLES {F}.
Arguments glTexCoord3f {F} _ _ _.
Arguments glVertex3f {F} _ _ _.
Arguments glEnd {F}.

Inductive EScalingMethod := SMETH_BIT_WIDTH | SMETH_BIAS_AND_SCALE.

(** Members of the renderer that the blend-state code does not read. *)
Record RendererColors (F : Type) := mkRendererColors {
  m_TFScalingMethod : EScalingMethod;
  m_cAmbient : VECTOR4 F;
  m_cDiffuse : VECTOR4 F;
  m_cSpecular : VECTOR4 F;
  m_vIsoColor : VECTOR3 F;
  dataset_GetScale : VECTOR3 F
}.
Arguments mkRendererColors {F} _ _ _ _ _ _.
Arguments m_TFScalingMethod {F} _.
Arguments m_cAmbient {F} _.
Arguments m_cDiffuse {F} _.
Arguments m_cSpecular {F} _.
Arguments m_vIsoColor {F} _.
Arguments dataset_GetScale {F} _.

Section RendererMore.

Context {F : Type} {ops : FloatOps F}.

Definition slices_of (g : SliceTriangles F) (d : ESliceDirection)
    : list (POS3TEX3_VERTEX F) :=
  match d with
  | DIRECTION_X => m_vSliceTrianglesX g
  | DIRECTION_Y => m_vSliceTrianglesY g
  | DIRECTION_Z => m_vSliceTrianglesZ g
  end.

(** One [glBegin(GL_TRIANGLES)] ... [glEnd()] block: the loop runs from the
    last vertex of the stack down to the first. *)
Definition draw_stack (stack : list (POS3TEX3_VERTEX F)) : list (GLCommand F) :=
  [glBegin_TRIANGLES]
  ++ flat_map (fun v =>
       [glTexCoord3f (x (m_vTex v)) (y (m_vTex v)) (z (m_vTex v));
        glVertex3f (x (m_vPos v)) (y (m_vPos v)) (z (m_vPos v))]) (rev stack)
  ++ [glEnd].

Definition RenderProxyGeometry (g : SliceTriangles F) : list (GLCommand F) :=
  flat_map (fun d => draw_stack (slices_of g d))
    [(m_vSliceTrianglesOrder g).1.1; (m_vSliceTrianglesOrder g).1.2;
     (m_vSliceTrianglesOrder g).2].

(** What the pipeline receives: each [glVertex3f] submits a vertex that
    carries the texture coordinate current at that moment ([None] before the
    first [glTexCoord3f]). *)
Fixpoint submitted_from (tex : option (VECTOR3 F)) (cmds : list (GLCommand F))
    : list (VECTOR3 F * option (VECTOR3 F)) :=
  match cmds with
  | [] => []
  | glTexCoord3f s t r :: cmds => submitted_from (Some (Vec3 s t r)) cmds
  | glVertex3f a b c :: cmds => (Vec3 a b c, tex) :: submitted_from tex cmds
  | _ :: cmds => submitted_from tex cmds
  end.

Definition as_submitted (v : POS3TEX3_VERTEX F) : VECTOR3 F * option (VECTOR3 F) :=
  (Vec3 (x (m_vPos v)) (y (m_vPos v)) (z (m_vPos v)),
   Some (Vec3 (x (m_vTex v)) (y (m_vTex v)) (z (m_vTex v)))).

(** [shader->Disable()] *)
Definition Disable (p : Program) (r : GLSBVR2D F) : GLSBVR2D F :=
  mkGLSBVR2D (m_eRenderMode r) (m_bUseLighting r) (m_bAvoidSeperateCompositing r)
    (m_bClipPlaneOn r) (m_bDecreaseSamplingRateNow r) (m_fSampleRateModifier r)
    (m_fSampleDecFactor r) (m_iCurrentLOD r) (dataset_GetComponentCount r)
    (dataset_GetDomainSize r) (gl r) None (texture_unit1 r)
    (uniforms r) (m_SBVRGeogen r) (errors r).

(** The parents' parts and the helpers, whose bodies are not among the
    sources. *)
Variable GLRenderer_Render3DPostLoop : GLSBVR2D F -> GLSBVR2D F.
Variable GLRenderer_SetDataDepShaderVars : GLSBVR2D F -> GLSBVR2D F.
Variable GLRenderer_UpdateColorsInShaders : GLSBVR2D F -> GLSBVR2D F.
Variable GetNormalizedIsovalue : GLSBVR2D F -> F.
Variable scale_bias_and_scale : GLSBVR2D F -> F * F.
Variable f_zero : F.
Variable f_minus_one : F.

Definition Render3DPostLoop (r : GLSBVR2D F) : GLSBVR2D F :=
  let r := GLRenderer_Render3DPostLoop r in
  (* disable the shader *)
  match m_eRenderMode r with
  | RM_1DTRANS =>
      let r := Disable (m_pProgram1DTrans (m_bUseLighting r)) r in
      with_gl glDisable_BLEND r
  | RM_2DTRANS =>
      let r := Disable (m_pProgram2DTrans (m_bUseLighting r)) r in
      with_gl glDisable_BLEND r
  | RM_ISOSURFACE =>
      if m_bAvoidSeperateCompositing r then
        let r :=
          if dataset_GetComponentCount r =? 1
          then Disable m_pProgramIsoNoCompose r
          else Disable m_pProgramColorNoCompose r in
        with_gl glDisable_BLEND r
      else r
  | RM_INVALID => T_ERROR "Invalid rendermode set" r
  end.

Definition is_RM (a b : ERenderMode) : bool :=
  match a, b with
  | RM_1DTRANS, RM_1DTRANS | RM_2DTRANS, RM_2DTRANS
  | RM_ISOSURFACE, RM_ISOSURFACE | RM_INVALID, RM_INVALID => true
  | _, _ => false
  end.

Definition is_SMETH (a b : EScalingMethod) : bool :=
  match a, b with
  | SMETH_BIT_WIDTH, SMETH_BIT_WIDTH
  | SMETH_BIAS_AND_SCALE, SMETH_BIAS_AND_SCALE => true
  | _, _ => false
  end.

(** [v.xyz() * v.w] *)
Definition xyz_times_w (v : VECTOR4 F) : VECTOR3 F :=
  Vec3 (f_mul (v4x v) (v4w v)) (f_mul (v4y v) (v4w v)) (f_mul (v4z v) (v4w v)).

(** The [MESSAGE] line only feeds the debug output and is left out. *)
Definition SetDataDepShaderVars (m : RendererColors F) (r : GLSBVR2D F)
    : GLSBVR2D F :=
  let r := GLRenderer_SetDataDepShaderVars r in
  let r :=
    if is_RM (m_eRenderMode r) RM_ISOSURFACE && m_bAvoidSeperateCompositing r then
      let shader :=
        if dataset_GetComponentCount r =? 1
        then m_pProgramIsoNoCompose else m_pProgramColorNoCompose in
      let d := xyz_times_w (m_cDiffuse m) in
      let r := Enable shader r in
      let r := SetUniformVector shader "fIsoval"
                 (Uniform1 (GetNormalizedIsovalue r)) r in
      let r := SetUniformVector shader "vLightDiffuse"
                 (Uniform3 (f_mul (x d) (x (m_vIsoColor m)))
                           (f_mul (y d) (y (m_vIsoColor m)))
                           (f_mul (z d) (z (m_vIsoColor m)))) r in
      Disable shader r
    else r in
  if is_RM (m_eRenderMode r) RM_1DTRANS
     && is_SMETH (m_TFScalingMethod m) SMETH_BIAS_AND_SCALE then
    let bias_scale := scale_bias_and_scale r in
    let r := Enable (m_pProgram1DTrans false) r in
    let r := SetUniformVector (m_pProgram1DTrans false) "TFuncBias"
               (Uniform1 bias_scale.1) r in
    let r := SetUniformVector (m_pProgram1DTrans false) "fTransScale"
               (Uniform1 bias_scale.2) r in
    Disable (m_pProgram1DTrans false) r
  else r.

Definition UpdateColorsInShaders (m : RendererColors F) (r : GLSBVR2D F)
    : GLSBVR2D F :=
  let r := GLRenderer_UpdateColorsInShaders r in
  let a := xyz_times_w (m_cAmbient m) in
  let d := xyz_times_w (m_cDiffuse m) in
  let s := xyz_times_w (m_cSpecular m) in
  (* so far the light source is always a headlight *)
  let dir := Vec3 f_zero f_zero f_minus_one in
  let scale := Vec3 (f_div f_one (x (dataset_GetScale m)))
                    (f_div f_one (y (dataset_GetScale m)))
                    (f_div f_one (z (dataset_GetScale m))) in
  let r := Enable m_pProgramIsoNoCompose r in
  let r := SetUniformVector m_pProgramIsoNoCompose "vLightAmbient"
             (Uniform3 (x a) (y a) (z a)) r in
  let r := SetUniformVector m_pProgramIsoNoCompose "vLightDiffuse"
             (Uniform3 (x d) (y d) (z d)) r in
  let r := SetUniformVector m_pProgramIsoNoCompose "vLightSpecular"
             (Uniform3 (x s) (y s) (z s)) r in
  let r := SetUniformVector m_pProgramIsoNoCompose "vLightDir"
             (Uniform3 (x dir) (y dir) (z dir)) r in
  let r := SetUniformVector m_pProgramIsoNoCompose "vDomainScale"
             (Uniform3 (x scale) (y scale) (z scale)) r in
  let r := Disable m_pProgramIsoNoCompose r in
  let r := Enable m_pProgramColorNoCompose r in
  let r := SetUniformVector m_pProgramColorNoCompose "vLightAmbient"
             (Uniform3 (x a) (y a) (z a)) r in
  let r := SetUniformVector m_pProgramColorNoCompose "vLightDir"
             (Uniform3 (x dir) (y dir) (z dir)) r in
  let r := SetUniformVector m_pProgramColorNoCompose "vDomainScale"
             (Uniform3 (x scale) (y scale) (z scale)) r in
  Disable m_pProgramColorNoCompose r.

End RendererMore.

(** The program whose uniforms a brick may change, by render mode. *)
Definition brick_shader {F : Type} (r : GLSBVR2D F) : option Program :=
  match m_eRenderMode r with
  | RM_1DTRANS => Some (m_pProgram1DTrans (m_bUseLighting r))
  | RM_2DTRANS => Some (m_pProgram2DTrans (m_bUseLighting r))
  | RM_ISOSURFACE => Some (isosurface_shader r)
  | RM_INVALID => None
  end.

(** Fixtures: a lit 1-D renderer, colours, and two stacks of slices. *)
Definition lit_1d_renderer : GLSBVR2D fexpr :=
  mkGLSBVR2D RM_1DTRANS true false false false FOne FOne 0 1
    (fun _ => Vec3 4 4 4)
    (mkGLState false false GL_ONE GL_ZERO GL_FUNC_ADD) None None
    (fun _ _ => None) (mkGeogen FOne false (Vec3 4 4 4)) [].

Definition grey : VECTOR4 fexpr := Vec4 FOne FOne FOne FOne.

Definition bias_and_scale_colors : RendererColors fexpr :=
  mkRendererColors SMETH_BIAS_AND_SCALE grey grey grey (Vec3 FOne FOne FOne)
    (Vec3 FOne FOne FOne).

Definition vertex_at (n : Z) : POS3TEX3_VERTEX fexpr :=
  mkVertex (Vec3 (FOfUInt n) FOne FOne) (Vec3 FOne (FOfUInt n) FOne).

Definition z_first_slices : SliceTriangles fexpr :=
  mkSliceTriangles (DIRECTION_Z, DIRECTION_X, DIRECTION_Y)
    [vertex_at 1; vertex_at 2; vertex_at 3] []
    [vertex_at 4; vertex_at 5; vertex_at 6].

(** ** The scripting system: qualified names and hook identifiers

    Of [LUAScripting.cpp], the parts that work on C++ strings and counters
    only; what goes through the Lua state is left out. *)

(** [#define QUALIFIED_NAME_DELIMITER "."] *)
Definition QUALIFIED_NAME_DELIMITER : list ascii := ["."%char].

(** [s.find_first_of(delims, pos)], [None] standing for [npos]. *)
Fixpoint find_first_of (delims s : list ascii) (pos : nat) : option nat :=
  match s with
  | [] => None
  | c :: s' =>
      match pos with
      | O => if bool_decide (c ∈ delims) then Some O
             else S <$> find_first_of delims s' O
      | S p => S <$> find_first_of delims s' p
      end
  end.

(** [s.find_last_of(delims)] *)
Fixpoint find_last_of (delims s : list ascii) : option nat :=
  match s with
  | [] => None
  | c :: s' =>
      match find_last_of delims s' with
      | Some i => Some (S i)
      | None => if bool_decide (c ∈ delims) then Some O else None
      end
  end.

(** [s.substr(pos, n)] for [pos <= s.size()]; [None] is [npos]. *)
Definition substr (s : list ascii) (pos : nat) (n : option nat) : list ascii :=
  match n with
  | Some n => take n (drop pos s)
  | None => drop pos s
  end.

Definition getUnqualifiedName (fqName : list ascii) : list ascii :=
  match find_last_of QUALIFIED_NAME_DELIMITER fqName with
  | None => fqName
  | Some beg => substr fqName (beg + 1) None
  end.

(** The tokenizing loop that opens [bindClosureTableWithFQName]: the state
    is [beg] and [tokens]; the result is the token vector or the message of
    the [LuaFunBindError] thrown, [None] when [fuel] iterations were not
    enough. *)
Fixpoint tokenize_loop (fuel : nat) (fqName : list ascii) (beg : nat)
    (tokens : list (list ascii)) : option (list (list ascii) + string) :=
  match fuel with
  | O => None
  | S fuel =>
      match find_first_of QUALIFIED_NAME_DELIMITER fqName beg with
      | Some end_ =>
          let tokens := tokens ++ [substr fqName beg (Some (end_ - beg)%nat)] in
          let beg := (end_ + 1)%nat in
          if (beg =? length fqName)%nat
          then Some (inr "Invalid function name. No function name after trailing period."%string)
          else tokenize_loop fuel fqName beg tokens
      | None => Some (inl (tokens ++ [substr fqName beg None]))
      end
  end.

(** The loop, then [if (tokens.size() == 0) throw ...]. *)
Definition tokenize (fqName : list ascii) : option (list (list ascii) + string) :=
  match tokenize_loop (S (length fqName)) fqName 0 [] with
  | Some (inl tokens) =>
      if (length tokens =? 0)%nat
      then Some (inr "No function name specified."%string)
      else Some (inl tokens)
  | other => other
  end.

(** [tokens] written out again with [sep] between neighbours. *)
Fixpoint join (sep : ascii) (tokens : list (list ascii)) : list ascii :=
  match tokens with
  | [] => []
  | t :: rest =>
      match rest with
      | [] => t
      | _ :: _ => t ++ sep :: join sep rest
      end
  end.

(** [os << "mh" << mMemberHookIndex; ++mMemberHookIndex;] with the counter
    taken to be an [int], printed in decimal. *)
Definition getNewMemberHookID (mMemberHookIndex : Z) : string * Z :=
  (String "m" (String "h" (DecimalString.NilZero.string_of_int (Z.to_int mMemberHookIndex))),
   mMemberHookIndex + 1).

(** The identifiers of [n] calls in a row. *)
Fixpoint hook_ids (n : nat) (mMemberHookIndex : Z) : list string :=
  match n with
  | O => []
  | S k =>
      let '(id, next) := getNewMemberHookID mMemberHookIndex in
      id :: hook_ids k next
  end.

(** * Properties *)

(** ** Wrap-around and byte order *)

Lemma wrap_small w v : in_range w v -> wrap w v = v.
Proof. intros H. unfold wrap. apply Z.mod_small. exact H. Qed.

Lemma wrap_in_range w v : 0 <= w -> in_range w (wrap w v).
Proof.
  intros Hw. unfold wrap, in_range. apply Z.mod_pos_bound.
  apply Z.pow_pos_nonneg; lia.
Qed.

Lemma length_be_bytes n v : length (be_bytes n v) = n.
Proof. induction n as [|k IH]; simpl; [reflexivity | now rewrite IH]. Qed.

Lemma be_fold n : forall v acc,
  fold_left be_step (be_bytes n v) acc =
  Z.lor (Z.shiftl acc (8 * Z.of_nat n)) (Z.land v (Z.ones (8 * Z.of_nat n))).
Proof.
  induction n as [|k IH]; intros v acc.
  - simpl. rewrite Z.shiftl_0_r, Z.land_0_r, Z.lor_0_r. reflexivity.
  - cbn [be_bytes fold_left]. rewrite IH. unfold be_step.
    change 255 with (Z.ones 8).
    apply Z.bits_inj'. intros i Hi.
    rewrite !Z.lor_spec, !Z.land_spec.
    rewrite !Z.shiftl_spec by lia.
    rewrite Z.lor_spec.
    destruct (Z.ltb_spec i (8 * Z.of_nat k)) as [Hlt|Hge].
    + rewrite (Z.testbit_neg_r (Z.shiftl acc 8)) by lia.
      rewrite (Z.testbit_neg_r (Z.land _ _) (i - _)) by lia.
      rewrite (Z.testbit_neg_r acc) by lia.
      rewrite !Z.ones_spec_low by lia. reflexivity.
    + rewrite (Z.ones_spec_high (8 * Z.of_nat k)) by lia.
      rewrite Z.land_spec, Z.shiftr_spec by lia.
      rewrite Z.shiftl_spec by lia.
      replace (i - 8 * Z.of_nat k + 8 * Z.of_nat k) with i by lia.
      replace (i - 8 * Z.of_nat k - 8) with (i - 8 * Z.of_nat (S k)) by lia.
      destruct (Z.ltb_spec i (8 * Z.of_nat (S k))) as [Hlt'|Hge'].
      * rewrite !Z.ones_spec_low by lia.
        rewrite (Z.testbit_neg_r acc) by lia.
        rewrite !andb_true_r, !andb_false_r, !orb_false_r. reflexivity.
      * rewrite !Z.ones_spec_high by lia.
        rewrite !andb_false_r, !orb_false_r. reflexivity.
Qed.

(** Reading back the [n] bytes written for [v] gives [v] wrapped to [8n]
    bits. *)
Lemma be_value_be_bytes n v :
  be_value (be_bytes n v) = wrap (8 * Z.of_nat n) v.
Proof.
  unfold be_value, wrap. rewrite be_fold.
  rewrite Z.shiftl_0_l, Z.lor_0_l. apply Z.land_ones. lia.
Qed.

(** Only the low [8n] bits of a value reach the wire. *)
Lemma be_bytes_wrap n : forall m v,
  (n <= m)%nat -> be_bytes n (wrap (8 * Z.of_nat m) v) = be_bytes n v.
Proof.
  induction n as [|k IH]; intros m v Hm; [reflexivity|].
  cbn [be_bytes]. rewrite IH by lia. f_equal.
  unfold wrap. rewrite <- Z.land_ones by lia.
  change 255 with (Z.ones 8).
  apply Z.bits_inj'. intros i Hi.
  rewrite !Z.land_spec, !Z.shiftr_spec, Z.land_spec by lia.
  destruct (Z.ltb_spec i 8) as [Hlt|Hge].
  - rewrite (Z.ones_spec_low (8 * Z.of_nat m)) by lia.
    now rewrite andb_true_r.
  - rewrite (Z.ones_spec_high 8) by lia. now rewrite !andb_false_r.
Qed.

Lemma be_bytes_uint32_t v : be_bytes 4 (uint32_t v) = be_bytes 4 v.
Proof. apply (be_bytes_wrap 4 4). lia. Qed.

Lemma be32s_uint32_t l : be32s (uint32_t <$> l) = be32s l.
Proof.
  unfold be32s. induction l as [|a l IH]; [reflexivity|].
  cbn [fmap list_fmap flat_map]. rewrite be_bytes_uint32_t. f_equal. exact IH.
Qed.

Lemma length_be32s l : length (be32s l) = (4 * length l)%nat.
Proof.
  unfold be32s. induction l as [|a l IH]; [reflexivity|].
  cbn [flat_map]. rewrite length_app, length_be_bytes, IH. cbn [length]. lia.
Qed.

(** Float and [u32] vectors come back as they were written. *)
Lemma be32_values_be32s (l : list Z) :
  Forall (in_range 32) l -> be32_values (length l) (be32s l) = l.
Proof.
  induction 1 as [|a l Ha _ IH]; [reflexivity|].
  cbn [length be32_values be32s flat_map]. fold (be32s l).
  rewrite take_app_length' by (now rewrite length_be_bytes).
  rewrite drop_app_length' by (now rewrite length_be_bytes).
  rewrite IH, be_value_be_bytes. f_equal. now apply wrap_small.
Qed.

(** ** Connections *)

Lemma send_lookup fd bs (net : gmap Z conn) c :
  net !! fd = Some c ->
  send fd bs net !! fd = Some (Conn (rx c) (tx c ++ bs)).
Proof. intros H. unfold send. rewrite H. apply lookup_insert_eq. Qed.

Lemma send_send fd b1 b2 (net : gmap Z conn) :
  send fd b2 (send fd b1 net) = send fd (b1 ++ b2) net.
Proof.
  unfold send. destruct (net !! fd) as [c|] eqn:H.
  - rewrite lookup_insert_eq. cbn. rewrite insert_insert_eq.
    now rewrite <- app_assoc.
  - now rewrite H.
Qed.

Lemma recv_enough fd n (net : gmap Z conn) c :
  net !! fd = Some c -> (n <= length (rx c))%nat ->
  recv fd n net = (Some (take n (rx c)), <[fd := Conn (drop n (rx c)) (tx c)]> net).
Proof.
  intros H Hn. unfold recv. rewrite H. now rewrite decide_True by exact Hn.
Qed.

(** ** Arrays *)

Lemma elements_Some {A : Type} (buf : list A) (n : nat) :
  (n <= length buf)%nat -> elements buf n = Some (take n buf).
Proof. intros H. unfold elements. now rewrite decide_True by exact H. Qed.

Lemma elements_all {A : Type} (buf : list A) (n : nat) :
  n = length buf -> elements buf n = Some buf.
Proof. intros ->. rewrite elements_Some by lia. now rewrite take_ge by lia. Qed.


Lemma array_of_Some {A : Type} (n : Z) (l : list A) :
  Z.of_nat (length l) = n -> array_of n l = Some l.
Proof. intros H. unfold array_of. now rewrite decide_True by exact H. Qed.

(** ** C10: the factory *)

Lemma OpenParams_initFromSocket_code heap socket this net :
  OpenParams_code (OpenParams_initFromSocket heap socket this net).1 =
  OpenParams_code this.
Proof.
  unfold OpenParams_initFromSocket.
  destruct (ru16 socket net) as [r net1].
  destruct (readFromSocket _ _ net1) as [rb net2]. reflexivity.
Qed.

Lemma CloseParams_initFromSocket_code heap socket this net :
  CloseParams_code (CloseParams_initFromSocket heap socket this net).1 =
  CloseParams_code this.
Proof.
  unfold CloseParams_initFromSocket.
  destruct (ru16 socket net) as [r net1].
  destruct (readFromSocket _ _ net1) as [rb net2]. reflexivity.
Qed.

Lemma BatchSizeParams_initFromSocket_code socket this net :
  BatchSizeParams_code (BatchSizeParams_initFromSocket socket this net).1 =
  BatchSizeParams_code this.
Proof.
  unfold BatchSizeParams_initFromSocket.
  destruct (rsizet socket net) as [r net1]. reflexivity.
Qed.

Lemma RotateParams_initFromSocket_code socket this net :
  RotateParams_code (RotateParams_initFromSocket socket this net).1 =
  RotateParams_code this.
Proof.
  unfold RotateParams_initFromSocket.
  destruct (rf32v socket net) as [rm net1].
  destruct (assign rm _) as [matrix matSize].
  destruct (ru8 socket net1) as [rt net2]. reflexivity.
Qed.

Lemma BrickParams_initFromSocket_code socket this net :
  BrickParams_code (BrickParams_initFromSocket socket this net).1 =
  BrickParams_code this.
Proof.
  unfold BrickParams_initFromSocket.
  destruct (ru8 socket net) as [rt net1].
  destruct (ru32 socket net1) as [rl net2].
  destruct (ru32 socket net2) as [rb net3]. reflexivity.
Qed.

(** C10.  For each of the seven known commands [createFrom] returns an
    object, never [NULL], whose [code] member is that command, whatever the
    descriptor holds; for every other value it returns [NULL]. *)
Theorem createFrom_code (code_value : NetDSCommandCode -> Z) (heap : Storage)
    (cmd : NetDSCommandCode) (socket : Z) (net : gmap Z conn) :
  match cmd with
  | nds_other _ => (createFrom code_value heap cmd socket net).1 = None
  | _ => exists w, (createFrom code_value heap cmd socket net).1 = Some w
                   /\ code w = cmd
  end.
Proof.
  destruct cmd; cbn [createFrom]; try reflexivity.
  - pose proof (OpenParams_initFromSocket_code heap socket
      (mkOpenParams nds_OPEN (OpenParams_len (new_OpenParams heap))
         (OpenParams_filename (new_OpenParams heap))) net) as H.
    unfold OpenParams_new. destruct (socket =? -1).
    + eexists; split; reflexivity.
    + destruct (OpenParams_initFromSocket _ _ _ _) as [p net'].
      eexists; split; [reflexivity | exact H].
  - pose proof (CloseParams_initFromSocket_code heap socket
      (mkCloseParams nds_CLOSE (CloseParams_len (new_CloseParams heap))
         (CloseParams_filename (new_CloseParams heap))) net) as H.
    unfold CloseParams_new. destruct (socket =? -1).
    + eexists; split; reflexivity.
    + destruct (CloseParams_initFromSocket _ _ _ _) as [p net'].
      eexists; split; [reflexivity | exact H].
  - pose proof (BrickParams_initFromSocket_code socket
      (mkBrickParams nds_BRICK (BrickParams_type (new_BrickParams heap))
         (BrickParams_lod (new_BrickParams heap))
         (BrickParams_bidx (new_BrickParams heap))) net) as H.
    unfold BrickParams_new. destruct (socket =? -1).
    + eexists; split; reflexivity.
    + destruct (BrickParams_initFromSocket _ _ _) as [p net'].
      eexists; split; [reflexivity | exact H].
  - eexists; split; reflexivity.
  - eexists; split; reflexivity.
  - pose proof (RotateParams_initFromSocket_code (code_value nds_ROTATION)
      (mkRotateParams nds_ROTATION (RotateParams_matrix (new_RotateParams heap))
         (RotateParams_matSize (new_RotateParams heap))
         (RotateParams_type (new_RotateParams heap))) net) as H.
    unfold RotateParams_new. destruct (code_value nds_ROTATION =? -1).
    + eexists; split; reflexivity.
    + destruct (RotateParams_initFromSocket _ _ _) as [p net'].
      eexists; split; [reflexivity | exact H].
  - pose proof (BatchSizeParams_initFromSocket_code socket
      (mkBatchSizeParams nds_BATCHSIZE
         (BatchSizeParams_newBatchSize (new_BatchSizeParams heap))) net) as H.
    unfold BatchSizeParams_new. destruct (socket =? -1).
    + eexists; split; reflexivity.
    + destruct (BatchSizeParams_initFromSocket _ _ _) as [p net'].
      eexists; split; [reflexivity | exact H].
Qed.

(** ** C1: writing a request and reading it back *)

(** C1.  A BRICK request written with [writeToSocket] does not come back
    from [initFromSocket]: the writer sends [lod] and [bidx] only, the reader
    takes the first byte for [type], so that [lod = 1] is read as 256 and
    [bidx] finds three bytes left.  A ROTATION request comes back with its
    matrix, but its [type] is never sent: the reader keeps whatever [type]
    the object held before. *)
Theorem writeToSocket_omits_type (code_value : NetDSCommandCode -> Z)
    (heap : Storage) (this_b : BrickParams) (this_r : RotateParams) :
  write_then_read code_value heap (IsBrickParams brick_request) (IsBrickParams this_b)
    = Some (IsBrickParams (mkBrickParams (BrickParams_code this_b) 0 256
                             (BrickParams_bidx this_b)))
  /\ write_then_read code_value heap (IsBrickParams brick_request)
       (IsBrickParams this_b) <> Some (IsBrickParams brick_request)
  /\ write_then_read code_value heap (IsRotateParams rotate_request)
       (IsRotateParams this_r)
     = Some (IsRotateParams (mkRotateParams (RotateParams_code this_r)
                               identity_matrix 16 (RotateParams_type this_r))).
Proof.
  assert (Hb : write_then_read code_value heap (IsBrickParams brick_request)
                 (IsBrickParams this_b)
               = Some (IsBrickParams (mkBrickParams (BrickParams_code this_b) 0 256
                                        (BrickParams_bidx this_b)))) by reflexivity.
  split; [exact Hb|]. split.
  - rewrite Hb. unfold brick_request. intros E. inversion E.
  - reflexivity.
Qed.

(** ** C2: the fan-out to the worker ranks *)

(** C2.  [RotateParams::mpi_sync] broadcasts the matrix only.  Whenever the
    sync has a defined outcome, no rank's [type] is touched by it; so a
    worker that held [type = 0] still holds 0 after the sync although rank 0
    parsed [type = N_UINT16]. *)
Theorem RotateParams_mpi_sync_keeps_type :
  (forall (srcRank : nat) (comm comm' : list RotateParams),
     RotateParams_mpi_sync srcRank comm = Some comm' ->
     RotateParams_type <$> comm' = RotateParams_type <$> comm)
  /\ RotateParams_mpi_sync 0 [rotate_request; rotate_worker]
     = Some [rotate_request; mkRotateParams nds_ROTATION identity_matrix 16 0].
Proof.
  split; [|reflexivity].
  intros srcRank comm comm' H. unfold RotateParams_mpi_sync, MPI_Bcast_n in H.
  destruct (comm !! srcRank) as [r|]; [|now injection H as <-].
  destruct (decide _) as [_|_] in H; [|discriminate].
  injection H as <-.
  rewrite <- list_fmap_compose. apply list_fmap_ext. intros i p _. reflexivity.
Qed.

(** ** C3: effective brick size *)

(** What the code computes for a known key: one voxel less on each axis,
    wrapping at 32 bits, whatever the position of the brick. *)
Lemma GetEffectiveBrickSize_minus_one (this : ExternalDataset) (bk : BrickKey)
    (md : BrickMD) :
  GetBrickMetadata bk this = Some md ->
  ExternalDataset_GetEffectiveBrickSize bk this =
  Some (Vec3 (uint32_t (x (n_voxels md) - 1)) (uint32_t (y (n_voxels md) - 1))
             (uint32_t (z (n_voxels md) - 1))).
Proof.
  intros H. unfold ExternalDataset_GetEffectiveBrickSize. now rewrite H.
Qed.

(** C3.  For the only brick of a one-brick dataset, whose six faces are
    domain faces, the contract gives the full 4x4x4 while
    [GetEffectiveBrickSize] answers 3x3x3, in line with the overlap of
    (1,1,1) that [GetBrickOverlapSize] reports for every dataset. *)
Theorem GetEffectiveBrickSize_boundary_brick :
  ExternalDataset_GetEffectiveBrickSize (0, 0, 0) single_brick_dataset
    = Some (Vec3 3 3 3)
  /\ ExternalDataset_GetBrickOverlapSize single_brick_dataset = Vec3 1 1 1
  /\ GetBrickMetadata (0, 0, 0) single_brick_dataset = Some lone_brick
  /\ effective_brick_size_contract (n_voxels lone_brick) (Vec3 false false false)
     = Vec3 4 4 4.
Proof. repeat split; reflexivity. Qed.

(** ** C7 and C9: hard-wired answers *)

(** C7.  [GetComponentCount] answers 1 in every state of the dataset and
    leaves one warning in the debug output. *)
Theorem GetComponentCount_one (this : ExternalDataset) (debugOut : list string) :
  ExternalDataset_GetComponentCount this debugOut
  = (1, debugOut ++ ["Assuming single-component data."%string]).
Proof. reflexivity. Qed.

(** C9.  [GetLODLevelCount] answers 1 in every state of the dataset, also
    after any number of bricks, of any level of detail, were added. *)
Theorem GetLODLevelCount_one (this : ExternalDataset)
    (added : list (BrickKey * BrickMD * VariantArray)) :
  ExternalDataset_GetLODLevelCount this = 1
  /\ ExternalDataset_GetLODLevelCount
       (foldr (fun b d => AddBrick b.1.1 b.1.2 b.2 d) this added) = 1.
Proof. split; reflexivity. Qed.

(** ** C5: blend state before the brick loop *)

Section PreLoop.

Context {F : Type} {ops : FloatOps F}.
Variable RenderRegion2D : Type.
Variable GLRenderer_RenderHQMIPPreLoop : RenderRegion2D -> GLSBVR2D F -> GLSBVR2D F.

(** C5.  After [Render3DPreLoop] in 1-D or 2-D transfer-function mode,
    blending is on with factors (ONE_MINUS_DST_ALPHA, ONE); after
    [RenderHQMIPPreLoop], whatever the parent class did before, the blend
    equation is MAX and the depth test is off. *)
Theorem PreLoop_blend_state (region : RenderRegion2D) (r : GLSBVR2D F) :
  match m_eRenderMode r with
  | RM_1DTRANS | RM_2DTRANS =>
      GL_BLEND (gl (Render3DPreLoop r)) = true
      /\ blend_sfactor (gl (Render3DPreLoop r)) = GL_ONE_MINUS_DST_ALPHA
      /\ blend_dfactor (gl (Render3DPreLoop r)) = GL_ONE
  | RM_ISOSURFACE | RM_INVALID => True
  end
  /\ blend_equation
       (gl (RenderHQMIPPreLoop RenderRegion2D GLRenderer_RenderHQMIPPreLoop region r))
     = GL_MAX
  /\ GL_DEPTH_TEST
       (gl (RenderHQMIPPreLoop RenderRegion2D GLRenderer_RenderHQMIPPreLoop region r))
     = false.
Proof.
  split.
  - unfold Render3DPreLoop. cbn. destruct (m_eRenderMode r); cbn; auto.
  - split; reflexivity.
Qed.

End PreLoop.

(** ** C6: per-brick shader uniforms *)

Section BrickUniforms.

Context {F : Type} {ops : FloatOps F}.

Lemma uniforms_SetUniformVector_eq p name v (r : GLSBVR2D F) :
  uniforms (SetUniformVector p name v r) p name = Some v.
Proof. cbn. rewrite decide_True; [reflexivity | split; reflexivity]. Qed.

Lemma uniforms_SetUniformVector_name p name v (r : GLSBVR2D F) q n :
  n <> name ->
  uniforms (SetUniformVector p name v r) q n = uniforms r q n.
Proof. intros H. cbn. rewrite decide_False; [reflexivity | intros [_ E]; auto]. Qed.

(** C6, as the code has it.  Which uniforms a brick gets depends on the
    render mode.  1-D transfer function: [fStepScale] on the active 1-D
    program, and [vVoxelStepsize] only with lighting.  2-D transfer function:
    both, on the active 2-D program.  Isosurface: [vVoxelStepsize] on the
    isosurface program in use, and [fStepScale] on no program.  Invalid mode:
    no uniform at all.  The values are [1/n_voxels] per component and
    [sqrt 2 / rate * maxVal (domain / domain at the current LOD)], [rate]
    being the sampling rate in force. *)
Theorem SetBrickDepShaderVars_uniforms (b : Brick) (r : GLSBVR2D F) :
  let r' := SetBrickDepShaderVars b r in
  let step := Uniform3 (x (vStep b)) (y (vStep b)) (z (vStep b)) in
  match m_eRenderMode r with
  | RM_1DTRANS =>
      uniforms r' (m_pProgram1DTrans (m_bUseLighting r)) "fStepScale"
        = Some (Uniform1 (fStepScale r))
      /\ (if m_bUseLighting r
          then uniforms r' (m_pProgram1DTrans true) "vVoxelStepsize" = Some step
          else forall p, uniforms r' p "vVoxelStepsize" = uniforms r p "vVoxelStepsize")
  | RM_2DTRANS =>
      uniforms r' (m_pProgram2DTrans (m_bUseLighting r)) "fStepScale"
        = Some (Uniform1 (fStepScale r))
      /\ uniforms r' (m_pProgram2DTrans (m_bUseLighting r)) "vVoxelStepsize"
         = Some step
  | RM_ISOSURFACE =>
      uniforms r' (isosurface_shader r) "vVoxelStepsize" = Some step
      /\ forall p, uniforms r' p "fStepScale" = uniforms r p "fStepScale"
  | RM_INVALID =>
      forall p n, uniforms r' p n = uniforms r p n
  end.
Proof.
  intros r' step. subst r' step. unfold SetBrickDepShaderVars.
  destruct (m_eRenderMode r).
  - cbn [m_bUseLighting SetUniformVector]. destruct (m_bUseLighting r) eqn:L.
    + split.
      * rewrite uniforms_SetUniformVector_name by discriminate.
        apply uniforms_SetUniformVector_eq.
      * apply uniforms_SetUniformVector_eq.
    + split.
      * apply uniforms_SetUniformVector_eq.
      * intros p. apply uniforms_SetUniformVector_name. discriminate.
  - split.
    + rewrite uniforms_SetUniformVector_name by discriminate.
      apply uniforms_SetUniformVector_eq.
    + apply uniforms_SetUniformVector_eq.
  - split.
    + apply uniforms_SetUniformVector_eq.
    + intros p. apply uniforms_SetUniformVector_name. discriminate.
  - intros p n. reflexivity.
Qed.

End BrickUniforms.

(** In isosurface mode no program gets [fStepScale]: a brick does not get
    both uniforms in every render mode. *)
Lemma isosurface_brick_without_fStepScale :
  ~ sets_both_uniforms brick_4x4x4 iso_renderer.
Proof.
  intros [[p H] _]. cbn in H.
  destruct (decide _) as [[_ E]|_] in H; discriminate.
Qed.

(** ** C8: the cached histogram *)

Section HistogramCache.

Variable Recalculate1DHistogram : gmap BrickKey VariantArray -> list Z.

Lemma requests_SetHistogram (h : list Z) (this : ExternalDataset) (n : nat) :
  requests Recalculate1DHistogram n (SetHistogram h this) = SetHistogram h this.
Proof. induction n as [|k IH]; [reflexivity | exact IH]. Qed.

Lemma write_invalidates (w : write_op) (this : ExternalDataset) :
  m_pHist1D (write w this) = None.
Proof. destruct w; reflexivity. Qed.

(** C8.  After [SetHistogram h] a request returns [h], and keeps returning
    [h] however often it is repeated.  Each write operation leaves no valid
    histogram behind, so that the next request recomputes from the bricks
    then stored; a histogram supplied after the write is returned as it
    is. *)
Theorem SetHistogram_until_write (h : list Z) (this : ExternalDataset) :
  (forall n : nat,
     (Get1DHistogram Recalculate1DHistogram
        (requests Recalculate1DHistogram n (SetHistogram h this))).1 = h)
  /\ (forall w : write_op,
        m_pHist1D (write w (SetHistogram h this)) = None
        /\ (Get1DHistogram Recalculate1DHistogram (write w (SetHistogram h this))).1
           = Recalculate1DHistogram (m_Data (write w (SetHistogram h this))))
  /\ (forall (w : write_op) (h' : list Z),
        (Get1DHistogram Recalculate1DHistogram
           (SetHistogram h' (write w (SetHistogram h this)))).1 = h').
Proof.
  split; [|split].
  - intros n. now rewrite requests_SetHistogram.
  - intros w. split; [apply write_invalidates|].
    unfold Get1DHistogram. now rewrite write_invalidates.
  - intros w h'. reflexivity.
Qed.

End HistogramCache.

(** ** C4: the OPEN response *)

Lemma length_flat_map_xyz {A B : Type} (f : A -> VECTOR3 B) (l : list A) :
  length (flat_map (fun a => xyz (f a)) l) = (3 * length l)%nat.
Proof.
  induction l as [|a l IH]; [reflexivity|].
  cbn [flat_map]. rewrite length_app, IH. cbn. lia.
Qed.

Section OpenResponse.

Variable openFile : list Z -> CallPerformer -> CallPerformer.

(** What rank 0 does when no count overflows. *)
Lemma OpenParams_perform_rank0 socket this object (net : gmap Z conn) :
  let object' := openFile (OpenParams_filename this) object in
  0 <= GetLODLevelCount (ds object') ->
  3 * GetLODLevelCount (ds object') < 2 ^ 64 ->
  3 * GetTotalBrickCount (ds object') < 2 ^ 64 ->
  OpenParams_perform openFile 0 socket this object net
  = Some (object', send socket (OPEN_response_table (ds object')) net).
Proof.
  intros object' Hlo Hhi Hn. unfold OpenParams_perform. cbn [Z.eqb negb].
  fold object'. set (d := ds object') in *.
  assert (Hb : 0 <= GetTotalBrickCount d) by (unfold GetTotalBrickCount; lia).
  rewrite (wrap_small 64 (GetLODLevelCount d * 3)) by (unfold in_range; lia).
  rewrite (wrap_small 64 (GetTotalBrickCount d * 3)) by (unfold in_range; lia).
  rewrite !array_of_Some
    by (unfold GetTotalBrickCount;
        rewrite ?length_fmap, ?length_flat_map_xyz, ?length_seqZ; lia).
  cbn [mbind option_bind]. unfold wru32v, wrsizetv_d, wrf32v_d, wru32v_d.
  rewrite !elements_all
    by (unfold GetTotalBrickCount;
        rewrite ?length_fmap, ?length_flat_map_xyz, ?length_seqZ; lia).
  cbn [fmap option_fmap option_map mbind option_bind].
  unfold wrsizet, wru32. rewrite !send_send.
  rewrite !be_bytes_uint32_t, !be32s_uint32_t. reflexivity.
Qed.

(** C4.  On rank 0 the bytes appended to the socket are, in order:
    [lod_count], the [3 * lod_count] layout values, [brick_count], the
    per-brick lods and linear indices, then centers, extents and voxel
    counts; every count, index and voxel count as a big-endian [u32], the
    socket helpers being those of the protocol description.  Nothing else is
    written, and no other connection is touched. *)
Theorem OpenParams_perform_response socket this object (net : gmap Z conn) c :
  let object' := openFile (OpenParams_filename this) object in
  net !! socket = Some c ->
  0 <= GetLODLevelCount (ds object') ->
  3 * GetLODLevelCount (ds object') < 2 ^ 64 ->
  3 * GetTotalBrickCount (ds object') < 2 ^ 64 ->
  exists net',
    OpenParams_perform openFile 0 socket this object net = Some (object', net')
    /\ net' !! socket = Some (Conn (rx c) (tx c ++ OPEN_response_table (ds object')))
    /\ forall fd, fd <> socket -> net' !! fd = net !! fd.
Proof.
  intros object' Hc Hlo Hhi Hn.
  exists (send socket (OPEN_response_table (ds object')) net). split; [|split].
  - now apply OpenParams_perform_rank0.
  - now apply send_lookup.
  - intros fd Hfd. unfold send. rewrite Hc. now apply lookup_insert_ne.
Qed.

End OpenResponse.

(** C4 (example).  Two levels of detail with layouts (2,2,2) and (1,1,1),
    nine bricks, on a connection with nothing written yet. *)
Lemma OpenParams_perform_response_two_lod :
  arriving [] !! 0 = Some (Conn [] [])
  /\ 0 <= 2
  /\ 3 * 2 < 2 ^ 64
  /\ 3 * 9 < 2 ^ 64
  /\ exists net',
       OpenParams_perform open_two_lod 0 0 open_request idle_performer (arriving [])
       = Some (open_two_lod (OpenParams_filename open_request) idle_performer, net')
       /\ net' !! 0 = Some (Conn [] ([] ++ OPEN_response_table two_lod_dataset))
       /\ forall fd, fd <> 0 -> net' !! fd = arriving [] !! fd.
Proof.
  assert (H0 : arriving [] !! 0 = Some (Conn [] [])) by reflexivity.
  assert (H1 : 0 <= 2) by lia.
  assert (H2 : 3 * 2 < 2 ^ 64) by (vm_compute; reflexivity).
  assert (H3 : 3 * 9 < 2 ^ 64) by (vm_compute; reflexivity).
  split; [exact H0 | split; [exact H1 | split; [exact H2 | split; [exact H3 |]]]].
  exact (OpenParams_perform_response open_two_lod 0 open_request idle_performer
           (arriving []) (Conn [] []) H0 H1 H2 H3).
Defined.

(** ** Requests that do survive the wire and the fan-out *)

Lemma arriving_lookup bytes : arriving bytes !! 0 = Some (Conn bytes []).
Proof. apply lookup_singleton_eq. Qed.

Lemma ru_be_bytes n v rest (net : gmap Z conn) c fd :
  net !! fd = Some c -> rx c = be_bytes n v ++ rest ->
  ru n fd net = (Some (wrap (8 * Z.of_nat n) v), <[fd := Conn rest (tx c)]> net).
Proof.
  intros H Hrx. unfold ru.
  rewrite (recv_enough _ _ _ _ H) by (rewrite Hrx, length_app, length_be_bytes; lia).
  rewrite Hrx.
  rewrite take_app_length' by (now rewrite length_be_bytes).
  rewrite drop_app_length' by (now rewrite length_be_bytes).
  cbn. now rewrite be_value_be_bytes.
Qed.

Lemma length_new_char heap n : length (new_char heap n) = n.
Proof. unfold new_char. now rewrite length_fmap, length_seq. Qed.

(** X1.  OPEN: a request whose [len] fits 16 bits and counts its [filename]
    comes back from [initFromSocket] as [writeToSocket] wrote it, whatever
    the reading object and the fresh storage held before. *)
Lemma OpenParams_round_trip (code_value : NetDSCommandCode -> Z) (heap : Storage)
    (R this : OpenParams) :
  in_range 16 (OpenParams_len R) ->
  length (OpenParams_filename R) = Z.to_nat (OpenParams_len R) ->
  OpenParams_code this = OpenParams_code R ->
  write_then_read code_value heap (IsOpenParams R) (IsOpenParams this)
  = Some (IsOpenParams R).
Proof.
  intros Hlen Hname Hcode. unfold write_then_read, sent.
  cbn [writeToSocket initFromSocket].
  unfold OpenParams_writeToSocket, wr.
  rewrite elements_all by (symmetry; exact Hname).
  cbn [fmap option_fmap option_map mbind option_bind].
  unfold wru8, wru16.
  rewrite !send_send.
  rewrite (send_lookup 0 _ _ (Conn [] [])) by apply lookup_singleton_eq.
  cbn [fmap option_fmap option_map mbind option_bind tx rx app]. f_equal.
  rewrite <- ?app_assoc.
  rewrite drop_app_length' by (symmetry; apply length_be_bytes).
  unfold OpenParams_initFromSocket, ru16.
  rewrite (ru_be_bytes 2 (OpenParams_len R) (OpenParams_filename R)
             _ _ 0 (arriving_lookup _) eq_refl).
  change (8 * Z.of_nat 2) with 16. rewrite (wrap_small 16) by exact Hlen.
  cbn [assign default from_option id tx]. unfold readFromSocket.
  rewrite Z.mul_1_r.
  rewrite (recv_enough 0 _ _ (Conn (OpenParams_filename R) []))
    by (first [apply lookup_insert_eq | cbn [rx]; lia]).
  cbn [rx fst assign default from_option id].
  rewrite take_ge by lia. rewrite Hcode. now destruct R.
Qed.

(** X3.  BATCHSIZE: the batch size comes back wrapped to 32 bits, hence
    intact when it fits and reduced modulo 2^32 when it does not. *)
Lemma BatchSizeParams_round_trip (code_value : NetDSCommandCode -> Z)
    (heap : Storage) (R this : BatchSizeParams) :
  write_then_read code_value heap (IsBatchSizeParams R) (IsBatchSizeParams this)
  = Some (IsBatchSizeParams
            (mkBatchSizeParams (BatchSizeParams_code this)
               (uint32_t (BatchSizeParams_newBatchSize R)))).
Proof.
  unfold write_then_read, sent. cbn [writeToSocket initFromSocket].
  unfold BatchSizeParams_writeToSocket, wru8, wrsizet, wru32.
  cbn [mbind option_bind].
  rewrite !send_send.
  rewrite (send_lookup 0 _ _ (Conn [] [])) by apply lookup_singleton_eq.
  cbn [fmap option_fmap option_map mbind option_bind tx rx app]. f_equal.
  rewrite drop_app_length' by (symmetry; apply length_be_bytes).
  unfold BatchSizeParams_initFromSocket, rsizet.
  rewrite (ru_be_bytes 4 (uint32_t (BatchSizeParams_newBatchSize R)) []
             _ _ 0 (arriving_lookup _)).
  - cbn [assign default from_option id fst]. do 2 f_equal.
    apply wrap_small. apply wrap_in_range. lia.
  - cbn [rx]. now rewrite app_nil_r.
Qed.

(** LIST_FILES and SHUTDOWN carry nothing but the command byte. *)
Lemma SimpleParams_round_trip (code_value : NetDSCommandCode -> Z)
    (heap : Storage) (R : SimpleParams) :
  write_then_read code_value heap (IsListFilesParams R) (IsListFilesParams R)
  = Some (IsListFilesParams R)
  /\ write_then_read code_value heap (IsShutdownParams R) (IsShutdownParams R)
     = Some (IsShutdownParams R).
Proof. split; reflexivity. Qed.

Lemma MPI_Bcast_root {X A : Type} (get : X -> A) (set : A -> X -> X)
    (root : nat) (comm : list X) (r : X) :
  comm !! root = Some r -> MPI_Bcast get set root comm = set (get r) <$> comm.
Proof. intros H. unfold MPI_Bcast. now rewrite H. Qed.

(** X7.  BRICK: after the sync every rank holds the root's [type], [lod]
    and [bidx]. *)
Lemma BrickParams_mpi_sync_all (srcRank : nat) (comm : list BrickParams)
    (root : BrickParams) :
  comm !! srcRank = Some root ->
  Forall (fun p => BrickParams_type p = BrickParams_type root
                   /\ BrickParams_lod p = BrickParams_lod root
                   /\ BrickParams_bidx p = BrickParams_bidx root)
         (BrickParams_mpi_sync srcRank comm).
Proof.
  intros H. unfold BrickParams_mpi_sync.
  rewrite (MPI_Bcast_root _ _ _ comm root H).
  erewrite (MPI_Bcast_root BrickParams_lod) by (rewrite list_lookup_fmap, H; reflexivity).
  erewrite (MPI_Bcast_root BrickParams_bidx)
    by (rewrite !list_lookup_fmap, H; reflexivity).
  rewrite !Forall_fmap. apply Forall_true. intros p. cbn. auto.
Qed.

(** BATCHSIZE: after the sync every rank, the root included, holds the
    root's batch size wrapped to 32 bits. *)
Lemma BatchSizeParams_mpi_sync_all (srcRank : nat) (comm : list BatchSizeParams)
    (root : BatchSizeParams) :
  comm !! srcRank = Some root ->
  Forall (fun p => BatchSizeParams_newBatchSize p
                   = uint32_t (BatchSizeParams_newBatchSize root))
         (BatchSizeParams_mpi_sync srcRank comm).
Proof.
  intros H. unfold BatchSizeParams_mpi_sync.
  rewrite (MPI_Bcast_root _ _ _ comm root H).
  rewrite Forall_fmap. apply Forall_true. intros p. reflexivity.
Qed.

(** X9.  OPEN: when the root's [filename] has [len] bytes, the sync has a
    defined outcome and every rank then holds the root's [len] and the root's
    [filename]; the workers' fresh buffers, allocated with the [len] just
    received, are overwritten in full. *)
Lemma OpenParams_mpi_sync_all (heap : nat -> Storage) (srcRank : nat)
    (comm : list OpenParams) (root : OpenParams) :
  comm !! srcRank = Some root ->
  length (OpenParams_filename root) = Z.to_nat (OpenParams_len root) ->
  exists comm',
    OpenParams_mpi_sync heap srcRank comm = Some comm'
    /\ length comm' = length comm
    /\ Forall (fun p => OpenParams_len p = OpenParams_len root
                        /\ OpenParams_filename p = OpenParams_filename root) comm'.
Proof.
  intros H Hlen. unfold OpenParams_mpi_sync, on_each_rank.
  rewrite (MPI_Bcast_root _ _ _ comm root H).
  unfold MPI_Bcast_n.
  rewrite list_lookup_imap, list_lookup_fmap, H. cbn [fmap option_fmap option_map].
  destruct (decide (srcRank <> srcRank)) as [N|_]; [exfalso; now apply N|].
  cbn [OpenParams_filename OpenParams_len].
  rewrite decide_True.
  - eexists. split; [reflexivity|]. split.
    + now rewrite length_fmap, length_imap, length_fmap.
    + rewrite Forall_fmap. apply Forall_lookup. intros i p Hp.
      rewrite list_lookup_imap, list_lookup_fmap in Hp.
      destruct (comm !! i) as [q|] eqn:Hq; [|discriminate].
      cbn in Hp. injection Hp as <-.
      destruct (decide (i <> srcRank)) as [Hne|He]; cbn.
      * split; [reflexivity|].
        rewrite take_ge by lia.
        rewrite drop_ge by (rewrite length_new_char; lia).
        apply app_nil_r.
      * split; [reflexivity|].
        assert (i = srcRank) as -> by (destruct (decide (i = srcRank)); [auto | contradiction]).
        rewrite H in Hq. injection Hq as <-. apply take_drop.
  - apply Forall_lookup. intros i p Hp.
    rewrite list_lookup_imap, list_lookup_fmap in Hp.
    destruct (comm !! i) as [q|] eqn:Hq; [|discriminate].
    cbn in Hp. injection Hp as <-.
    destruct (decide (i <> srcRank)) as [Hne|He]; cbn.
    + split; [reflexivity|]. rewrite length_new_char. lia.
    + split; [reflexivity|].
      assert (i = srcRank) as -> by (destruct (decide (i = srcRank)); [auto | contradiction]).
      rewrite H in Hq. injection Hq as <-. lia.
Qed.

(** ** The descriptor of a ROTATION request *)

Lemma recv_other fd fd' n (net : gmap Z conn) :
  fd' <> fd -> (recv fd n net).2 !! fd' = net !! fd'.
Proof.
  intros H. unfold recv. destruct (net !! fd) as [c|]; [|reflexivity].
  destruct (decide _); cbn; now rewrite lookup_insert_ne.
Qed.

Lemma ru_other k fd fd' (net : gmap Z conn) :
  fd' <> fd -> (ru k fd net).2 !! fd' = net !! fd'.
Proof.
  intros H. unfold ru. pose proof (recv_other fd fd' k net H) as E.
  destruct (recv fd k net) as [r net']. exact E.
Qed.

Lemma rf32v_other fd fd' (net : gmap Z conn) :
  fd' <> fd -> (rf32v fd net).2 !! fd' = net !! fd'.
Proof.
  intros H. unfold rf32v, rsizet. pose proof (ru_other 4 fd fd' net H) as E.
  destruct (ru 4 fd net) as [[count|] net1]; [|exact E].
  pose proof (recv_other fd fd' (4 * Z.to_nat count) net1 H) as E1.
  destruct (recv fd _ net1) as [rb net2]. cbn in *. congruence.
Qed.

(** Whatever waits on the descriptor numbered like the command, no other
    descriptor is read. *)
Lemma createFrom_ROTATION_other_descriptor (code_value : NetDSCommandCode -> Z)
    (heap : Storage) (socket : Z) (net : gmap Z conn) :
  socket <> code_value nds_ROTATION ->
  (createFrom code_value heap nds_ROTATION socket net).2 !! socket = net !! socket.
Proof.
  intros H. cbn [createFrom]. unfold RotateParams_new.
  destruct (code_value nds_ROTATION =? -1); [reflexivity|].
  unfold RotateParams_initFromSocket.
  pose proof (rf32v_other (code_value nds_ROTATION) socket net H) as E.
  destruct (rf32v _ net) as [rm net1].
  destruct (assign rm _) as [matrix matSize].
  pose proof (ru_other 1 (code_value nds_ROTATION) socket net1 H) as E1.
  unfold ru8. destruct (ru 1 _ net1) as [rt net2]. cbn in *. congruence.
Qed.

(** X6.  [createFrom] hands [cmd], not [socket], to the constructor of
    [RotateParams]: a ROTATION request is read from the descriptor numbered
    like the command.  When a float vector and a type byte wait there, the
    object created holds exactly these, that descriptor has lost exactly
    these bytes, and the descriptor [socket] is as it was, whatever waits
    on it. *)
Theorem createFrom_ROTATION_descriptor (code_value : NetDSCommandCode -> Z)
    (heap : Storage) (socket : Z) (net : gmap Z conn) (c : conn)
    (floats : list Z) (t : Z) (rest : list Z) :
  code_value nds_ROTATION <> -1 ->
  socket <> code_value nds_ROTATION ->
  net !! code_value nds_ROTATION = Some c ->
  rx c = be_bytes 4 (Z.of_nat (length floats)) ++ be32s floats ++ be_bytes 1 t ++ rest ->
  Z.of_nat (length floats) < 2 ^ 32 ->
  Forall (in_range 32) floats ->
  in_range 8 t ->
  createFrom code_value heap nds_ROTATION socket net
  = (Some (IsRotateParams
             (mkRotateParams nds_ROTATION floats (Z.of_nat (length floats)) t)),
     <[code_value nds_ROTATION := Conn rest (tx c)]> net)
  /\ (createFrom code_value heap nds_ROTATION socket net).2 !! socket = net !! socket.
Proof.
  intros Hcv Hsock Hc Hrx Hn Hfloats Ht.
  split; [|now apply createFrom_ROTATION_other_descriptor].
  cbn [createFrom]. unfold RotateParams_new.
  destruct (Z.eqb_spec (code_value nds_ROTATION) (-1)) as [E|_]; [contradiction|].
  unfold RotateParams_initFromSocket, rf32v, rsizet.
  rewrite (ru_be_bytes 4 _ _ _ _ _ Hc Hrx).
  change (8 * Z.of_nat 4) with 32.
  rewrite (wrap_small 32) by (unfold in_range; lia).
  rewrite Nat2Z.id.
  rewrite (recv_enough _ _ _ (Conn (be32s floats ++ be_bytes 1 t ++ rest) (tx c)))
    by (first [apply lookup_insert_eq
              | cbn [rx]; rewrite length_app, length_be32s; lia]).
  cbn [rx tx fmap option_fmap option_map].
  rewrite take_app_length' by (now rewrite length_be32s).
  rewrite drop_app_length' by (now rewrite length_be32s).
  rewrite be32_values_be32s by exact Hfloats.
  cbn [assign default from_option id]. unfold ru8.
  rewrite (ru_be_bytes 1 t rest _ (Conn (be_bytes 1 t ++ rest) (tx c)))
    by (first [apply lookup_insert_eq | reflexivity]).
  change (8 * Z.of_nat 1) with 8. rewrite (wrap_small 8) by exact Ht.
  cbn [assign default from_option id tx RotateParams_code].
  now rewrite !insert_insert_eq.
Qed.

(** * Further properties of the server's request objects *)

(** X1 (example).  The OPEN request ["a"] survives the wire. *)
Lemma OpenParams_round_trip_example :
  in_range 16 (OpenParams_len open_request)
  /\ length (OpenParams_filename open_request) = Z.to_nat (OpenParams_len open_request)
  /\ OpenParams_code (mkOpenParams nds_OPEN 0 []) = OpenParams_code open_request
  /\ write_then_read numbering zeroed (IsOpenParams open_request)
       (IsOpenParams (mkOpenParams nds_OPEN 0 []))
     = Some (IsOpenParams open_request).
Proof.
  assert (H1 : in_range 16 (OpenParams_len open_request))
    by (unfold in_range; cbn; lia).
  assert (H2 : length (OpenParams_filename open_request)
               = Z.to_nat (OpenParams_len open_request)) by reflexivity.
  assert (H3 : OpenParams_code (mkOpenParams nds_OPEN 0 [])
               = OpenParams_code open_request) by reflexivity.
  split; [exact H1 | split; [exact H2 | split; [exact H3 |]]].
  exact (OpenParams_round_trip numbering zeroed open_request
           (mkOpenParams nds_OPEN 0 []) H1 H2 H3).
Defined.

(** X2.  CLOSE: a request whose [len] fits 16 bits and counts its
    [filename] comes back from [initFromSocket] as [writeToSocket] wrote it,
    whatever the reading object and the fresh storage held before. *)
Lemma CloseParams_round_trip (code_value : NetDSCommandCode -> Z) (heap : Storage)
    (R this : CloseParams) :
  in_range 16 (CloseParams_len R) ->
  length (CloseParams_filename R) = Z.to_nat (CloseParams_len R) ->
  CloseParams_code this = CloseParams_code R ->
  write_then_read code_value heap (IsCloseParams R) (IsCloseParams this)
  = Some (IsCloseParams R).
Proof.
  intros Hlen Hname Hcode. unfold write_then_read, sent.
  cbn [writeToSocket initFromSocket].
  unfold CloseParams_writeToSocket, wr.
  rewrite elements_all by (symmetry; exact Hname).
  cbn [fmap option_fmap option_map mbind option_bind].
  unfold wru8, wru16.
  rewrite !send_send.
  rewrite (send_lookup 0 _ _ (Conn [] [])) by apply lookup_singleton_eq.
  cbn [fmap option_fmap option_map mbind option_bind tx rx app]. f_equal.
  rewrite <- ?app_assoc.
  rewrite drop_app_length' by (symmetry; apply length_be_bytes).
  unfold CloseParams_initFromSocket, ru16.
  rewrite (ru_be_bytes 2 (CloseParams_len R) (CloseParams_filename R)
             _ _ 0 (arriving_lookup _) eq_refl).
  change (8 * Z.of_nat 2) with 16. rewrite (wrap_small 16) by exact Hlen.
  cbn [assign default from_option id tx]. unfold readFromSocket.
  rewrite Z.mul_1_r.
  rewrite (recv_enough 0 _ _ (Conn (CloseParams_filename R) []))
    by (first [apply lookup_insert_eq | cbn [rx]; lia]).
  cbn [rx fst assign default from_option id].
  rewrite take_ge by lia. rewrite Hcode. now destruct R.
Qed.

(** X2 (example).  The CLOSE request ["a"] survives the wire. *)
Lemma CloseParams_round_trip_example :
  in_range 16 (CloseParams_len close_request)
  /\ length (CloseParams_filename close_request)
     = Z.to_nat (CloseParams_len close_request)
  /\ CloseParams_code (mkCloseParams nds_CLOSE 0 []) = CloseParams_code close_request
  /\ write_then_read numbering zeroed (IsCloseParams close_request)
       (IsCloseParams (mkCloseParams nds_CLOSE 0 []))
     = Some (IsCloseParams close_request).
Proof.
  assert (H1 : in_range 16 (CloseParams_len close_request))
    by (unfold in_range; cbn; lia).
  assert (H2 : length (CloseParams_filename close_request)
               = Z.to_nat (CloseParams_len close_request)) by reflexivity.
  assert (H3 : CloseParams_code (mkCloseParams nds_CLOSE 0 [])
               = CloseParams_code close_request) by reflexivity.
  split; [exact H1 | split; [exact H2 | split; [exact H3 |]]].
  exact (CloseParams_round_trip numbering zeroed close_request
           (mkCloseParams nds_CLOSE 0 []) H1 H2 H3).
Defined.


(** X5.  With the descriptor [-1] the factory reads nothing: no connection
    changes, for every command but ROTATION (whose constructor is handed the
    command code for a descriptor). *)
Theorem createFrom_without_socket (code_value : NetDSCommandCode -> Z)
    (heap : Storage) (cmd : NetDSCommandCode) (net : gmap Z conn) :
  cmd <> nds_ROTATION ->
  (createFrom code_value heap cmd (-1) net).2 = net.
Proof.
  intros H. destruct cmd; try reflexivity. contradiction.
Qed.

(** X5 (example).  BRICK without a descriptor. *)
Lemma createFrom_without_socket_example :
  nds_BRICK <> nds_ROTATION
  /\ (createFrom numbering zeroed nds_BRICK (-1) (arriving [1; 2; 3])).2
     = arriving [1; 2; 3].
Proof.
  assert (H : nds_BRICK <> nds_ROTATION) by discriminate.
  split; [exact H|].
  exact (createFrom_without_socket numbering zeroed nds_BRICK (arriving [1; 2; 3]) H).
Defined.

(** X6 (example).  A ROTATION created for descriptor 0, with the command
    numbered 5: the identity matrix and [type = 1] are taken from descriptor
    5, and the bytes waiting on descriptor 0 stay unread. *)
Lemma createFrom_ROTATION_descriptor_example :
  numbering nds_ROTATION <> -1
  /\ 0 <> numbering nds_ROTATION
  /\ rotation_waiting_on_5 !! numbering nds_ROTATION
     = Some (Conn (be_bytes 4 16 ++ be32s identity_matrix ++ be_bytes 1 1 ++ [7]) [])
  /\ rx (Conn (be_bytes 4 16 ++ be32s identity_matrix ++ be_bytes 1 1 ++ [7]) [])
     = be_bytes 4 (Z.of_nat (length identity_matrix))
       ++ be32s identity_matrix ++ be_bytes 1 1 ++ [7]
  /\ Z.of_nat (length identity_matrix) < 2 ^ 32
  /\ Forall (in_range 32) identity_matrix
  /\ in_range 8 1
  /\ createFrom numbering zeroed nds_ROTATION 0 rotation_waiting_on_5
     = (Some (IsRotateParams
                (mkRotateParams nds_ROTATION identity_matrix
                   (Z.of_nat (length identity_matrix)) 1)),
        <[numbering nds_ROTATION :=
            Conn [7] (tx (Conn (be_bytes 4 16 ++ be32s identity_matrix
                                ++ be_bytes 1 1 ++ [7]) []))]>
          rotation_waiting_on_5)
  /\ (createFrom numbering zeroed nds_ROTATION 0 rotation_waiting_on_5).2 !! 0
     = rotation_waiting_on_5 !! 0.
Proof.
  assert (H1 : numbering nds_ROTATION <> -1) by (cbn; lia).
  assert (H2 : 0 <> numbering nds_ROTATION) by (cbn; lia).
  assert (H3 : rotation_waiting_on_5 !! numbering nds_ROTATION
               = Some (Conn (be_bytes 4 16 ++ be32s identity_matrix
                             ++ be_bytes 1 1 ++ [7]) [])) by reflexivity.
  assert (H4 : rx (Conn (be_bytes 4 16 ++ be32s identity_matrix
                         ++ be_bytes 1 1 ++ [7]) [])
               = be_bytes 4 (Z.of_nat (length identity_matrix))
                 ++ be32s identity_matrix ++ be_bytes 1 1 ++ [7]) by reflexivity.
  assert (H5 : Z.of_nat (length identity_matrix) < 2 ^ 32) by (vm_compute; reflexivity).
  assert (H6 : Forall (in_range 32) identity_matrix)
    by (repeat constructor; unfold in_range, f32_one, f32_zero; lia).
  assert (H7 : in_range 8 1) by (unfold in_range; lia).
  split; [exact H1 | split; [exact H2 | split; [exact H3 | split; [exact H4 |
    split; [exact H5 | split; [exact H6 | split; [exact H7 |]]]]]]].
  exact (createFrom_ROTATION_descriptor numbering zeroed 0 rotation_waiting_on_5
           _ identity_matrix 1 [7] H1 H2 H3 H4 H5 H6 H7).
Defined.

(** X7 (example).  Two ranks, rank 0 holding the BRICK request. *)
Lemma BrickParams_mpi_sync_all_example :
  two_ranks_brick !! 0%nat = Some brick_request
  /\ Forall (fun p => BrickParams_type p = BrickParams_type brick_request
                      /\ BrickParams_lod p = BrickParams_lod brick_request
                      /\ BrickParams_bidx p = BrickParams_bidx brick_request)
            (BrickParams_mpi_sync 0 two_ranks_brick).
Proof.
  assert (H : two_ranks_brick !! 0%nat = Some brick_request) by reflexivity.
  split; [exact H|].
  exact (BrickParams_mpi_sync_all 0 two_ranks_brick brick_request H).
Defined.

(** X8.  BATCHSIZE on every rank: after the sync, [perform] sets each
    rank's [maxBatchSize] to the root's batch size wrapped to 32 bits (the
    root's own value included), keeps the dataset and writes nothing. *)
Theorem BatchSize_fan_out (srcRank : nat) (comm : list BatchSizeParams)
    (root : BatchSizeParams) (socket : Z) (object : CallPerformer)
    (net : gmap Z conn) :
  comm !! srcRank = Some root ->
  Forall (fun p =>
            BatchSizeParams_perform socket p object net
            = (mkCallPerformer (ds object)
                 (uint32_t (BatchSizeParams_newBatchSize root)), net))
         (BatchSizeParams_mpi_sync srcRank comm).
Proof.
  intros H. eapply Forall_impl; [exact (BatchSizeParams_mpi_sync_all _ _ _ H)|].
  intros p Hp. unfold BatchSizeParams_perform. now rewrite Hp.
Qed.

(** X8 (example).  The root asks for 2^32 + 5: every rank ends with 5. *)
Lemma BatchSize_fan_out_example :
  two_ranks_batch !! 0%nat = Some (mkBatchSizeParams nds_BATCHSIZE 4294967301)
  /\ Forall (fun p =>
               BatchSizeParams_perform 0 p idle_performer (arriving [])
               = (mkCallPerformer (ds idle_performer)
                    (uint32_t (BatchSizeParams_newBatchSize
                                 (mkBatchSizeParams nds_BATCHSIZE 4294967301))),
                  arriving []))
            (BatchSizeParams_mpi_sync 0 two_ranks_batch).
Proof.
  assert (H : two_ranks_batch !! 0%nat
              = Some (mkBatchSizeParams nds_BATCHSIZE 4294967301)) by reflexivity.
  split; [exact H|].
  exact (BatchSize_fan_out 0 two_ranks_batch _ 0 idle_performer (arriving []) H).
Defined.

(** X9 (example).  Two ranks, rank 0 holding the OPEN request ["a"]. *)
Lemma OpenParams_mpi_sync_all_example :
  two_ranks_open !! 0%nat = Some open_request
  /\ length (OpenParams_filename open_request) = Z.to_nat (OpenParams_len open_request)
  /\ exists comm',
       OpenParams_mpi_sync (fun _ => zeroed) 0 two_ranks_open = Some comm'
       /\ length comm' = length two_ranks_open
       /\ Forall (fun p => OpenParams_len p = OpenParams_len open_request
                           /\ OpenParams_filename p = OpenParams_filename open_request)
                 comm'.
Proof.
  assert (H : two_ranks_open !! 0%nat = Some open_request) by reflexivity.
  assert (H2 : length (OpenParams_filename open_request)
               = Z.to_nat (OpenParams_len open_request)) by reflexivity.
  split; [exact H | split; [exact H2|]].
  exact (OpenParams_mpi_sync_all (fun _ => zeroed) 0 two_ranks_open open_request H H2).
Defined.

(** CLOSE: when the root's [filename] has [len] bytes, the sync has a
    defined outcome and every rank then holds the root's [len] and
    [filename]. *)
Lemma CloseParams_mpi_sync_all (heap : nat -> Storage) (srcRank : nat)
    (comm : list CloseParams) (root : CloseParams) :
  comm !! srcRank = Some root ->
  length (CloseParams_filename root) = Z.to_nat (CloseParams_len root) ->
  exists comm',
    CloseParams_mpi_sync heap srcRank comm = Some comm'
    /\ length comm' = length comm
    /\ Forall (fun p => CloseParams_len p = CloseParams_len root
                        /\ CloseParams_filename p = CloseParams_filename root) comm'.
Proof.
  intros H Hlen. unfold CloseParams_mpi_sync, on_each_rank.
  rewrite (MPI_Bcast_root _ _ _ comm root H).
  unfold MPI_Bcast_n.
  rewrite list_lookup_imap, list_lookup_fmap, H. cbn [fmap option_fmap option_map].
  destruct (decide (srcRank <> srcRank)) as [N|_]; [exfalso; now apply N|].
  cbn [CloseParams_filename CloseParams_len].
  rewrite decide_True.
  - eexists. split; [reflexivity|]. split.
    + now rewrite length_fmap, length_imap, length_fmap.
    + rewrite Forall_fmap. apply Forall_lookup. intros i p Hp.
      rewrite list_lookup_imap, list_lookup_fmap in Hp.
      destruct (comm !! i) as [q|] eqn:Hq; [|discriminate].
      cbn in Hp. injection Hp as <-.
      destruct (decide (i <> srcRank)) as [Hne|He]; cbn.
      * split; [reflexivity|].
        rewrite take_ge by lia.
        rewrite drop_ge by (rewrite length_new_char; lia).
        apply app_nil_r.
      * split; [reflexivity|].
        assert (i = srcRank) as -> by (destruct (decide (i = srcRank)); [auto | contradiction]).
        rewrite H in Hq. injection Hq as <-. apply take_drop.
  - apply Forall_lookup. intros i p Hp.
    rewrite list_lookup_imap, list_lookup_fmap in Hp.
    destruct (comm !! i) as [q|] eqn:Hq; [|discriminate].
    cbn in Hp. injection Hp as <-.
    destruct (decide (i <> srcRank)) as [Hne|He]; cbn.
    + split; [reflexivity|]. rewrite length_new_char. lia.
    + split; [reflexivity|].
      assert (i = srcRank) as -> by (destruct (decide (i = srcRank)); [auto | contradiction]).
      rewrite H in Hq. injection Hq as <-. lia.
Qed.

(** X10.  ROTATION: the sync has a defined outcome exactly when the
    [matrix] of every rank points to at least 16 floats; [mpi_sync] itself
    allocates nothing.  The first 16 floats of every rank are then the
    root's; no array changes its size and no rank's [matSize] is changed.
    With a worker whose [matrix] points to no float, the 16 floats are
    written past the end of its array. *)
Theorem RotateParams_mpi_sync_matrix (srcRank : nat) (comm : list RotateParams)
    (root : RotateParams) :
  comm !! srcRank = Some root ->
  (RotateParams_mpi_sync srcRank comm <> None
   <-> Forall (fun p => (16 <= length (RotateParams_matrix p))%nat) comm)
  /\ (forall comm',
        RotateParams_mpi_sync srcRank comm = Some comm' ->
        Forall (fun p => take 16 (RotateParams_matrix p)
                         = take 16 (RotateParams_matrix root)) comm'
        /\ (fun p => length (RotateParams_matrix p)) <$> comm'
           = (fun p => length (RotateParams_matrix p)) <$> comm
        /\ RotateParams_matSize <$> comm' = RotateParams_matSize <$> comm)
  /\ RotateParams_mpi_sync 0 [rotate_request; rotate_worker_unallocated] = None.
Proof.
  intros H. unfold RotateParams_mpi_sync, MPI_Bcast_n. rewrite H.
  split; [|split; [|reflexivity]].
  - destruct (decide _) as [Hall|Hnot].
    + split; [|discriminate]. intros _.
      eapply Forall_impl; [exact Hall|]. intros p [_ Hp]. exact Hp.
    + split; [intros N; now contradiction N|]. intros Hall. exfalso. apply Hnot.
      eapply Forall_impl; [exact Hall|]. intros p Hp. split; [reflexivity | exact Hp].
  - intros comm' E. destruct (decide _) as [Hall|_] in E; [|discriminate].
    injection E as <-.
    assert (Hroot : (16 <= length (RotateParams_matrix root))%nat)
      by (apply (Forall_lookup_1 _ _ _ _ Hall H)).
    split; [|split].
    + rewrite Forall_fmap. apply Forall_true. intros p. cbn.
      apply take_app_length'. rewrite length_take. lia.
    + rewrite <- list_fmap_compose. apply Forall_fmap_ext_1.
      eapply Forall_impl; [exact Hall|]. intros p [_ Hp]. cbn.
      rewrite length_app, length_take, length_drop. lia.
    + rewrite <- list_fmap_compose. apply list_fmap_ext. intros i p _. reflexivity.
Qed.

(** X10 (example).  The root holds the identity, the worker an array of 16
    zeros. *)
Lemma RotateParams_mpi_sync_matrix_example :
  [rotate_request; rotate_worker] !! 0%nat = Some rotate_request
  /\ (RotateParams_mpi_sync 0 [rotate_request; rotate_worker] <> None
      <-> Forall (fun p => (16 <= length (RotateParams_matrix p))%nat)
            [rotate_request; rotate_worker])
  /\ (forall comm',
        RotateParams_mpi_sync 0 [rotate_request; rotate_worker] = Some comm' ->
        Forall (fun p => take 16 (RotateParams_matrix p)
                         = take 16 (RotateParams_matrix rotate_request)) comm'
        /\ (fun p => length (RotateParams_matrix p)) <$> comm'
           = (fun p => length (RotateParams_matrix p)) <$> [rotate_request; rotate_worker]
        /\ RotateParams_matSize <$> comm'
           = RotateParams_matSize <$> [rotate_request; rotate_worker])
  /\ RotateParams_mpi_sync 0 [rotate_request; rotate_worker_unallocated] = None.
Proof.
  assert (H : [rotate_request; rotate_worker] !! 0%nat = Some rotate_request)
    by reflexivity.
  split; [exact H|].
  exact (RotateParams_mpi_sync_matrix 0 [rotate_request; rotate_worker]
           rotate_request H).
Defined.

(** X11.  The OPEN response on rank 0 has [8 + 12 L + 44 n] bytes for [L]
    levels of detail and [n] bricks, and nothing waiting on the socket is
    consumed. *)
Theorem OpenParams_perform_response_size
    (openFile : list Z -> CallPerformer -> CallPerformer)
    (socket : Z) (this : OpenParams) (object : CallPerformer)
    (net : gmap Z conn) (c : conn) :
  let object' := openFile (OpenParams_filename this) object in
  net !! socket = Some c ->
  0 <= GetLODLevelCount (ds object') ->
  3 * GetLODLevelCount (ds object') < 2 ^ 64 ->
  3 * GetTotalBrickCount (ds object') < 2 ^ 64 ->
  exists net' c',
    OpenParams_perform openFile 0 socket this object net = Some (object', net')
    /\ net' !! socket = Some c'
    /\ rx c' = rx c
    /\ length (tx c')
       = (length (tx c) + 8 + 12 * Z.to_nat (GetLODLevelCount (ds object'))
          + 44 * length (bricks (ds object')))%nat.
Proof.
  intros object' Hc Hlo Hhi Hn.
  exists (send socket (OPEN_response_table (ds object')) net). eexists.
  split; [exact (OpenParams_perform_rank0 openFile socket this object net Hlo Hhi Hn)|].
  split; [exact (send_lookup _ _ _ _ Hc)|]. split; [reflexivity|].
  cbn [tx]. unfold OPEN_response_table, GetTotalBrickCount.
  repeat rewrite ?length_app, ?length_be32s, ?length_be_bytes,
    ?length_fmap, ?length_flat_map_xyz, ?length_seqZ.
  lia.
Qed.

(** X11 (example).  Two levels of detail and nine bricks: 428 bytes. *)
Lemma OpenParams_perform_response_size_example :
  arriving [] !! 0 = Some (Conn [] [])
  /\ 0 <= 2
  /\ 3 * 2 < 2 ^ 64
  /\ 3 * 9 < 2 ^ 64
  /\ exists net' c',
       OpenParams_perform open_two_lod 0 0 open_request idle_performer (arriving [])
       = Some (open_two_lod (OpenParams_filename open_request) idle_performer, net')
       /\ net' !! 0 = Some c'
       /\ rx c' = rx (Conn [] [])
       /\ length (tx c')
          = (length (tx (Conn [] [])) + 8 + 12 * Z.to_nat 2
             + 44 * length (bricks two_lod_dataset))%nat.
Proof.
  assert (H0 : arriving [] !! 0 = Some (Conn [] [])) by reflexivity.
  assert (H1 : 0 <= 2) by lia.
  assert (H2 : 3 * 2 < 2 ^ 64) by (vm_compute; reflexivity).
  assert (H3 : 3 * 9 < 2 ^ 64) by (vm_compute; reflexivity).
  split; [exact H0 | split; [exact H1 | split; [exact H2 | split; [exact H3 |]]]].
  exact (OpenParams_perform_response_size open_two_lod 0 open_request
           idle_performer (arriving []) (Conn [] []) H0 H1 H2 H3).
Defined.


Section PerformMoreFacts.

Variable openFile : list Z -> CallPerformer -> CallPerformer.
Variable rotate : list Z -> CallPerformer -> CallPerformer.
Variable listFiles : CallPerformer -> list (list Z).
Variable GetNeededBricks : CallPerformer -> option (list (VECTOR4 Z)).
Variable IndexFrom4D : Dataset -> VECTOR4 Z -> Z -> BrickKey.
Variable cstr_image : list Z -> list Z.



(** X14.  On a rank other than 0, OPEN still opens the file but writes
    nothing; ROTATION does not even render: the performer is returned
    untouched and nothing is sent; BRICK answers nothing and LIST_FILES
    writes nothing. *)
Theorem perform_on_worker (rank socket : Z) (this_o : OpenParams)
    (this_b : BrickParams) (this_r : RotateParams) (object : CallPerformer)
    (net : gmap Z conn) :
  rank <> 0 ->
  OpenParams_perform openFile rank socket this_o object net
  = Some (openFile (OpenParams_filename this_o) object, net)
  /\ RotateParams_perform rotate GetNeededBricks IndexFrom4D rank socket this_r object
     = Some (object, None)
  /\ BrickParams_perform rank socket this_b = None
  /\ ListFilesParams_perform listFiles cstr_image rank socket object net = net.
Proof.
  intros H.
  unfold OpenParams_perform, RotateParams_perform, BrickParams_perform,
    ListFilesParams_perform.
  destruct (Z.eqb_spec rank 0) as [E|_]; [contradiction|]. auto.
Qed.

Lemma send_nil fd (net : gmap Z conn) : send fd [] net = net.
Proof.
  unfold send. destruct (net !! fd) as [c|] eqn:H; [|reflexivity].
  rewrite app_nil_r. destruct c. now apply insert_id.
Qed.

Lemma fold_left_wrCStr fd (names : list (list Z)) (net : gmap Z conn) :
  fold_left (fun net name => wrCStr cstr_image fd name net) names net
  = send fd (concat (cstr_image <$> names)) net.
Proof.
  revert net. induction names as [|a l IH]; intros net; cbn.
  - now rewrite send_nil.
  - rewrite IH. unfold wrCStr. apply send_send.
Qed.

(** X15.  LIST_FILES on rank 0 appends the number of files as one [u16],
    reduced modulo 65536, and then every file name in listing order, however
    many there are. *)
Theorem ListFilesParams_perform_response (socket : Z) (object : CallPerformer)
    (net : gmap Z conn) (c : conn) :
  net !! socket = Some c ->
  ListFilesParams_perform listFiles cstr_image 0 socket object net !! socket
  = Some (Conn (rx c)
            (tx c ++ be_bytes 2 (Z.of_nat (length (listFiles object)) mod 65536)
                  ++ concat (cstr_image <$> listFiles object))).
Proof.
  intros H. unfold ListFilesParams_perform. cbn [Z.eqb].
  rewrite fold_left_wrCStr. unfold wru16. rewrite send_send.
  now rewrite (send_lookup _ _ _ _ H).
Qed.

End PerformMoreFacts.



(** X14 (example).  Rank 1. *)
Lemma perform_on_worker_example :
  1 <> 0
  /\ OpenParams_perform open_two_lod 1 0 open_request idle_performer (arriving [])
     = Some (open_two_lod (OpenParams_filename open_request) idle_performer,
             arriving [])
  /\ RotateParams_perform (fun _ o => o) needs_two_bricks linear_index 1 0
       rotate_request idle_performer
     = Some (idle_performer, None)
  /\ BrickParams_perform 1 0 brick_request = None
  /\ ListFilesParams_perform (fun _ => [[97]; [98]]) (fun s => s) 1 0
       idle_performer (arriving []) = arriving [].
Proof.
  assert (H : 1 <> 0) by lia.
  split; [exact H|].
  exact (perform_on_worker open_two_lod (fun _ o => o) (fun _ => [[97]; [98]])
           needs_two_bricks linear_index (fun s => s) 1 0 open_request brick_request
           rotate_request idle_performer (arriving []) H).
Defined.

(** X15 (example).  Two files on an open connection. *)
Lemma ListFilesParams_perform_response_example :
  arriving [] !! 0 = Some (Conn [] [])
  /\ ListFilesParams_perform (fun _ => [[97]; [98]]) (fun s => s) 0 0
       idle_performer (arriving []) !! 0
     = Some (Conn (rx (Conn [] []))
               (tx (Conn [] [])
                ++ be_bytes 2 (Z.of_nat (length [[97]; [98]]) mod 65536)
                ++ concat ((fun s => s) <$> [[97]; [98]]))).
Proof.
  assert (H : arriving [] !! 0 = Some (Conn [] [])) by reflexivity.
  split; [exact H|].
  exact (ListFilesParams_perform_response (fun _ => [[97]; [98]]) (fun s => s) 0
           idle_performer (arriving []) (Conn [] []) H).
Defined.

(** * Further properties of the external dataset *)

(** X16.  A brick stored with no voxels along x gets an effective size of
    [2^32 - 1] there: the subtraction is unsigned. *)
Theorem GetEffectiveBrickSize_wraps (this : ExternalDataset) (bk : BrickKey)
    (md : BrickMD) :
  GetBrickMetadata bk this = Some md ->
  x (n_voxels md) = 0 ->
  x <$> ExternalDataset_GetEffectiveBrickSize bk this = Some 4294967295.
Proof.
  intros H H0. unfold ExternalDataset_GetEffectiveBrickSize. rewrite H. cbn.
  now rewrite H0.
Qed.

(** X16 (example).  A brick of 0x4x4 voxels. *)
Lemma GetEffectiveBrickSize_wraps_example :
  GetBrickMetadata (0, 0, 0)
    (mkExternalDataset {[ (0, 0, 0) := mkBrickMD (center lone_brick)
                                         (extents lone_brick) (Vec3 0 4 4) ]}
       None ∅ 0 (Vec3 4 4 4) (0, 0))
  = Some (mkBrickMD (center lone_brick) (extents lone_brick) (Vec3 0 4 4))
  /\ x (n_voxels (mkBrickMD (center lone_brick) (extents lone_brick) (Vec3 0 4 4))) = 0
  /\ x <$> ExternalDataset_GetEffectiveBrickSize (0, 0, 0)
             (mkExternalDataset {[ (0, 0, 0) := mkBrickMD (center lone_brick)
                                                  (extents lone_brick) (Vec3 0 4 4) ]}
                None ∅ 0 (Vec3 4 4 4) (0, 0))
     = Some 4294967295.
Proof.
  pose (e := mkExternalDataset {[ (0, 0, 0) := mkBrickMD (center lone_brick)
                                                 (extents lone_brick) (Vec3 0 4 4) ]}
               None ∅ 0 (Vec3 4 4 4) (0, 0)).
  assert (H : GetBrickMetadata (0, 0, 0) e
              = Some (mkBrickMD (center lone_brick) (extents lone_brick) (Vec3 0 4 4)))
    by reflexivity.
  assert (H0 : x (n_voxels (mkBrickMD (center lone_brick) (extents lone_brick)
                              (Vec3 0 4 4))) = 0) by reflexivity.
  split; [exact H | split; [exact H0|]].
  exact (GetEffectiveBrickSize_wraps e (0, 0, 0) _ H H0).
Defined.

Lemma DataTable_begin_None (this : ExternalDataset) :
  DataTable_begin this = None <-> m_Data this = ∅.
Proof.
  unfold DataTable_begin. split.
  - intros H. apply map_to_list_empty_iff.
    destruct (map_to_list (m_Data this)); [reflexivity | discriminate].
  - intros ->. now rewrite map_to_list_empty.
Qed.

Lemma DataTable_begin_Some (this : ExternalDataset) (iter : BrickKey * VariantArray) :
  DataTable_begin this = Some iter -> m_Data this !! iter.1 = Some iter.2.
Proof.
  unfold DataTable_begin. intros H.
  apply elem_of_map_to_list. rewrite <- surjective_pairing.
  destruct (map_to_list (m_Data this)) as [|a l]; [discriminate|].
  injection H as ->. apply list_elem_of_here.
Qed.

(** X17.  The three data type queries fail their assertion together,
    exactly when the dataset holds no brick data.  When they answer, they
    agree with each other: floating-point data is signed and 32 or 64 bits
    wide, unsigned data is 8 or 16 bits wide. *)
Theorem data_type_queries_agree (this : ExternalDataset) :
  (m_Data this = ∅
   /\ ExternalDataset_GetBitWidth this = None
   /\ ExternalDataset_GetIsSigned this = None
   /\ ExternalDataset_GetIsFloat this = None)
  \/ (m_Data this <> ∅
      /\ exists (w : Z) (s f : bool),
           ExternalDataset_GetBitWidth this = Some w
           /\ ExternalDataset_GetIsSigned this = Some s
           /\ ExternalDataset_GetIsFloat this = Some f
           /\ (w = 8 \/ w = 16 \/ w = 32 \/ w = 64)
           /\ (f = true -> s = true /\ (w = 32 \/ w = 64))
           /\ (s = false -> f = false /\ (w = 8 \/ w = 16))).
Proof.
  unfold ExternalDataset_GetBitWidth, ExternalDataset_GetIsSigned,
    ExternalDataset_GetIsFloat.
  destruct (DataTable_begin this) as [iter|] eqn:E.
  - right. split.
    + intros N. apply DataTable_begin_None in N. congruence.
    + do 3 eexists. repeat (split; [reflexivity|]).
      destruct (va_type iter.2); cbn; intuition (auto; discriminate).
  - left. apply DataTable_begin_None in E. auto.
Qed.

(** X18.  When every stored brick has the same element type, the queries
    answer for that type, whichever brick the table happens to list first. *)
Theorem data_type_queries_uniform (this : ExternalDataset) (t : DataType) :
  m_Data this <> ∅ ->
  (forall k a, m_Data this !! k = Some a -> va_type a = t) ->
  ExternalDataset_GetBitWidth this
  = Some (match t with
          | DT_UBYTE | DT_BYTE => 8
          | DT_USHORT | DT_SHORT => 16
          | DT_FLOAT => 32
          | DT_DOUBLE => 64
          end)
  /\ ExternalDataset_GetIsSigned this
     = Some (match t with DT_UBYTE | DT_USHORT => false | _ => true end)
  /\ ExternalDataset_GetIsFloat this
     = Some (match t with DT_FLOAT | DT_DOUBLE => true | _ => false end).
Proof.
  intros Hne Hall.
  unfold ExternalDataset_GetBitWidth, ExternalDataset_GetIsSigned,
    ExternalDataset_GetIsFloat.
  destruct (DataTable_begin this) as [iter|] eqn:E.
  - apply DataTable_begin_Some in E. apply Hall in E. rewrite E.
    destruct t; repeat split; reflexivity.
  - apply DataTable_begin_None in E. contradiction.
Qed.

(** X18 (example).  One brick of unsigned shorts. *)
Lemma data_type_queries_uniform_example :
  m_Data ushort_dataset <> ∅
  /\ (forall k a, m_Data ushort_dataset !! k = Some a -> va_type a = DT_USHORT)
  /\ ExternalDataset_GetBitWidth ushort_dataset = Some 16
  /\ ExternalDataset_GetIsSigned ushort_dataset = Some false
  /\ ExternalDataset_GetIsFloat ushort_dataset = Some false.
Proof.
  assert (H1 : m_Data ushort_dataset <> ∅).
  { intros N. apply (f_equal (fun m => m !! (0, 0, 0))) in N. discriminate N. }
  assert (H2 : forall k a, m_Data ushort_dataset !! k = Some a -> va_type a = DT_USHORT).
  { intros k a H. cbn in H. apply lookup_singleton_Some in H as [_ <-]. reflexivity. }
  split; [exact H1 | split; [exact H2|]].
  exact (data_type_queries_uniform ushort_dataset DT_USHORT H1 H2).
Defined.

(** X19.  [SetDomainSize] changes the domain size and nothing else, and
    [GetDomainSize] returns it for every level of detail; for a renderer
    showing an external dataset the step scale therefore compares the domain
    with itself and does not depend on the current level of detail. *)
Theorem fStepScale_external_dataset {F : Type} {ops : FloatOps F}
    (e : ExternalDataset) (sx sy sz : Z) (r : GLSBVR2D F) :
  (forall lod, dataset_GetDomainSize r lod
               = ExternalDataset_GetDomainSize (ExternalDataset_SetDomainSize sx sy sz e)) ->
  ExternalDataset_GetDomainSize (ExternalDataset_SetDomainSize sx sy sz e) = Vec3 sx sy sz
  /\ brick_md (ExternalDataset_SetDomainSize sx sy sz e) = brick_md e
  /\ m_Data (ExternalDataset_SetDomainSize sx sy sz e) = m_Data e
  /\ m_pHist1D (ExternalDataset_SetDomainSize sx sy sz e) = m_pHist1D e
  /\ fStepScale r
     = f_mul (f_div f_sqrt2 (effective_sample_rate r))
         (maxVal (Vec3 (f_div (f_of_uint sx) (f_of_uint sx))
                       (f_div (f_of_uint sy) (f_of_uint sy))
                       (f_div (f_of_uint sz) (f_of_uint sz)))).
Proof.
  intros H. repeat (split; [reflexivity|]).
  unfold fStepScale. now rewrite !H.
Qed.

(** X19 (example).  The 4x4x4 dataset shown at level 3. *)
Lemma fStepScale_external_dataset_example :
  (forall lod, dataset_GetDomainSize external_renderer lod
               = ExternalDataset_GetDomainSize
                   (ExternalDataset_SetDomainSize 4 4 4 single_brick_dataset))
  /\ ExternalDataset_GetDomainSize
       (ExternalDataset_SetDomainSize 4 4 4 single_brick_dataset) = Vec3 4 4 4
  /\ brick_md (ExternalDataset_SetDomainSize 4 4 4 single_brick_dataset)
     = brick_md single_brick_dataset
  /\ m_Data (ExternalDataset_SetDomainSize 4 4 4 single_brick_dataset)
     = m_Data single_brick_dataset
  /\ m_pHist1D (ExternalDataset_SetDomainSize 4 4 4 single_brick_dataset)
     = m_pHist1D single_brick_dataset
  /\ fStepScale external_renderer
     = f_mul (f_div f_sqrt2 (effective_sample_rate external_renderer))
         (maxVal (Vec3 (f_div (f_of_uint 4) (f_of_uint 4))
                       (f_div (f_of_uint 4) (f_of_uint 4))
                       (f_div (f_of_uint 4) (f_of_uint 4)))).
Proof.
  assert (H : forall lod, dataset_GetDomainSize external_renderer lod
                          = ExternalDataset_GetDomainSize
                              (ExternalDataset_SetDomainSize 4 4 4 single_brick_dataset))
    by (intros lod; reflexivity).
  split; [exact H|].
  exact (fStepScale_external_dataset single_brick_dataset 4 4 4 external_renderer H).
Defined.

(** * Further properties of the slice renderer *)

Section ProxyGeometry.

Context {F : Type}.

Lemma submitted_from_stack (l : list (POS3TEX3_VERTEX F)) :
  forall (tex : option (VECTOR3 F)) (rest : list (GLCommand F)),
  exists tex',
    submitted_from tex
      (flat_map (fun v =>
         [glTexCoord3f (x (m_vTex v)) (y (m_vTex v)) (z (m_vTex v));
          glVertex3f (x (m_vPos v)) (y (m_vPos v)) (z (m_vPos v))]) l ++ rest)
    = (as_submitted <$> l) ++ submitted_from tex' rest.
Proof.
  induction l as [|v l IH]; intros tex rest.
  - exists tex. reflexivity.
  - cbn [flat_map app submitted_from fmap list_fmap].
    destruct (IH (Some (Vec3 (x (m_vTex v)) (y (m_vTex v)) (z (m_vTex v)))) rest)
      as [tex' E].
    exists tex'. rewrite <- ?app_assoc. cbn [app submitted_from].
    rewrite E. reflexivity.
Qed.

Lemma submitted_from_draw_stack (stack : list (POS3TEX3_VERTEX F))
    (tex : option (VECTOR3 F)) (rest : list (GLCommand F)) :
  exists tex',
    submitted_from tex (draw_stack stack ++ rest)
    = (as_submitted <$> rev stack) ++ submitted_from tex' rest.
Proof.
  unfold draw_stack. cbn [app submitted_from]. rewrite <- !app_assoc.
  destruct (submitted_from_stack (rev stack) tex ([glEnd] ++ rest)) as [tex' E].
  exists tex'. rewrite E. reflexivity.
Qed.

(** X20.  [RenderProxyGeometry] submits the three stacks named by
    [m_vSliceTrianglesOrder], in that order, each from its last vertex to its
    first, every vertex with its own texture coordinate, and nothing else. *)
Theorem RenderProxyGeometry_submits (g : SliceTriangles F) :
  submitted_from None (RenderProxyGeometry g)
  = as_submitted
      <$> (rev (slices_of g (m_vSliceTrianglesOrder g).1.1)
           ++ rev (slices_of g (m_vSliceTrianglesOrder g).1.2)
           ++ rev (slices_of g (m_vSliceTrianglesOrder g).2)).
Proof.
  unfold RenderProxyGeometry. cbn [flat_map].
  destruct (submitted_from_draw_stack
              (slices_of g (m_vSliceTrianglesOrder g).1.1) None
              (draw_stack (slices_of g (m_vSliceTrianglesOrder g).1.2)
               ++ draw_stack (slices_of g (m_vSliceTrianglesOrder g).2) ++ []))
    as [t1 E1].
  rewrite E1.
  destruct (submitted_from_draw_stack
              (slices_of g (m_vSliceTrianglesOrder g).1.2) t1
              (draw_stack (slices_of g (m_vSliceTrianglesOrder g).2) ++ []))
    as [t2 E2].
  rewrite E2.
  destruct (submitted_from_draw_stack
              (slices_of g (m_vSliceTrianglesOrder g).2) t2 []) as [t3 E3].
  rewrite E3. cbn [submitted_from]. rewrite app_nil_r.
  now rewrite !fmap_app.
Qed.

(** X21.  When the drawing order names each direction once, every vertex
    of every stack is submitted exactly once. *)
Theorem RenderProxyGeometry_each_once (g : SliceTriangles F) :
  [(m_vSliceTrianglesOrder g).1.1; (m_vSliceTrianglesOrder g).1.2;
   (m_vSliceTrianglesOrder g).2]
    ≡ₚ [DIRECTION_X; DIRECTION_Y; DIRECTION_Z] ->
  submitted_from None (RenderProxyGeometry g)
    ≡ₚ as_submitted
         <$> (m_vSliceTrianglesX g ++ m_vSliceTrianglesY g ++ m_vSliceTrianglesZ g).
Proof.
  intros H.
  assert (E : submitted_from None (RenderProxyGeometry g)
              = as_submitted
                  <$> (rev (slices_of g (m_vSliceTrianglesOrder g).1.1)
                       ++ rev (slices_of g (m_vSliceTrianglesOrder g).1.2)
                       ++ rev (slices_of g (m_vSliceTrianglesOrder g).2))).
  { unfold RenderProxyGeometry. cbn [flat_map].
    destruct (submitted_from_draw_stack
                (slices_of g (m_vSliceTrianglesOrder g).1.1) None
                (draw_stack (slices_of g (m_vSliceTrianglesOrder g).1.2)
                 ++ draw_stack (slices_of g (m_vSliceTrianglesOrder g).2) ++ []))
      as [t1 E1].
    rewrite E1.
    destruct (submitted_from_draw_stack
                (slices_of g (m_vSliceTrianglesOrder g).1.2) t1
                (draw_stack (slices_of g (m_vSliceTrianglesOrder g).2) ++ []))
      as [t2 E2].
    rewrite E2.
    destruct (submitted_from_draw_stack
                (slices_of g (m_vSliceTrianglesOrder g).2) t2 []) as [t3 E3].
    rewrite E3. cbn [submitted_from]. rewrite app_nil_r.
    now rewrite !fmap_app. }
  rewrite E. apply fmap_Permutation.
  rewrite <- !Permutation_rev.
  assert (HX : DIRECTION_X ∈ [(m_vSliceTrianglesOrder g).1.1;
                              (m_vSliceTrianglesOrder g).1.2;
                              (m_vSliceTrianglesOrder g).2])
    by (rewrite H; apply list_elem_of_In; cbn; auto).
  assert (HY : DIRECTION_Y ∈ [(m_vSliceTrianglesOrder g).1.1;
                              (m_vSliceTrianglesOrder g).1.2;
                              (m_vSliceTrianglesOrder g).2])
    by (rewrite H; apply list_elem_of_In; cbn; auto).
  assert (HZ : DIRECTION_Z ∈ [(m_vSliceTrianglesOrder g).1.1;
                              (m_vSliceTrianglesOrder g).1.2;
                              (m_vSliceTrianglesOrder g).2])
    by (rewrite H; apply list_elem_of_In; cbn; auto).
  clear H E. apply list_elem_of_In in HX, HY, HZ.
  destruct (m_vSliceTrianglesOrder g) as [[o0 o1] o2]. cbn [fst snd] in *.
  destruct o0, o1, o2; cbn [slices_of];
    try solve_Permutation;
    exfalso; cbn in HX, HY, HZ; intuition discriminate.
Qed.

End ProxyGeometry.

(** X21 (example).  Z first, then X, then Y. *)
Lemma RenderProxyGeometry_each_once_example :
  [(m_vSliceTrianglesOrder z_first_slices).1.1;
   (m_vSliceTrianglesOrder z_first_slices).1.2;
   (m_vSliceTrianglesOrder z_first_slices).2]
    ≡ₚ [DIRECTION_X; DIRECTION_Y; DIRECTION_Z]
  /\ submitted_from None (RenderProxyGeometry z_first_slices)
       ≡ₚ as_submitted
            <$> (m_vSliceTrianglesX z_first_slices ++ m_vSliceTrianglesY z_first_slices
                 ++ m_vSliceTrianglesZ z_first_slices).
Proof.
  assert (H : [(m_vSliceTrianglesOrder z_first_slices).1.1;
               (m_vSliceTrianglesOrder z_first_slices).1.2;
               (m_vSliceTrianglesOrder z_first_slices).2]
                ≡ₚ [DIRECTION_X; DIRECTION_Y; DIRECTION_Z]).
  { cbn. apply (Permutation_cons_app [DIRECTION_X; DIRECTION_Y] []). reflexivity. }
  split; [exact H|].
  exact (RenderProxyGeometry_each_once z_first_slices H).
Defined.

Section RendererMoreFacts.

Context {F : Type} {ops : FloatOps F}.
Variable GLRenderer_Render3DPostLoop : GLSBVR2D F -> GLSBVR2D F.
Variable GLRenderer_SetDataDepShaderVars : GLSBVR2D F -> GLSBVR2D F.
Variable GLRenderer_UpdateColorsInShaders : GLSBVR2D F -> GLSBVR2D F.
Variable GetNormalizedIsovalue : GLSBVR2D F -> F.
Variable scale_bias_and_scale : GLSBVR2D F -> F * F.
Variable f_zero : F.
Variable f_minus_one : F.

Lemma uniforms_SetUniformVector_program p name v (r : GLSBVR2D F) q n :
  q <> p ->
  uniforms (SetUniformVector p name v r) q n = uniforms r q n.
Proof. intros H. cbn. rewrite decide_False; [reflexivity | intros [E _]; auto]. Qed.

(** X22.  [Render3DPostLoop], after the parent's part: in the transfer
    function modes and on the isosurface fast path blending is switched off
    and no program stays active, the depth test and the blend equation being
    left alone; in two-pass isosurface mode nothing at all is undone, so the
    depth test is as the parent left it; an invalid mode is reported and
    changes no GL state. *)
Theorem Render3DPostLoop_state (r : GLSBVR2D F) :
  let p := GLRenderer_Render3DPostLoop r in
  let r' := Render3DPostLoop GLRenderer_Render3DPostLoop r in
  let switched_off :=
    GL_BLEND (gl r') = false
    /\ current_program r' = None
    /\ GL_DEPTH_TEST (gl r') = GL_DEPTH_TEST (gl p)
    /\ blend_equation (gl r') = blend_equation (gl p)
    /\ errors r' = errors p in
  match m_eRenderMode p with
  | RM_1DTRANS | RM_2DTRANS => switched_off
  | RM_ISOSURFACE => if m_bAvoidSeperateCompositing p then switched_off else r' = p
  | RM_INVALID =>
      gl r' = gl p /\ current_program r' = current_program p
      /\ errors r' = errors p ++ ["Invalid rendermode set"%string]
  end.
Proof.
  intros p r' switched_off. subst switched_off r'. unfold Render3DPostLoop.
  fold p. destruct (m_eRenderMode p); cbn.
  - repeat split.
  - repeat split.
  - destruct (m_bAvoidSeperateCompositing p); [|reflexivity].
    destruct (dataset_GetComponentCount p =? 1); repeat split.
  - repeat split.
Qed.

(** X23.  With the bias-and-scale method in 1-D mode, [TFuncBias] and
    [fTransScale] are stored in the unlit 1-D program only: every uniform of
    the lit program, the one that draws when lighting is on, is as the parent
    left it; no program stays active and no GL state changes. *)
Theorem SetDataDepShaderVars_bias_scale (m : RendererColors F) (r : GLSBVR2D F) :
  let p := GLRenderer_SetDataDepShaderVars r in
  let r' := SetDataDepShaderVars GLRenderer_SetDataDepShaderVars
              GetNormalizedIsovalue scale_bias_and_scale m r in
  m_eRenderMode p = RM_1DTRANS ->
  m_TFScalingMethod m = SMETH_BIAS_AND_SCALE ->
  uniforms r' (m_pProgram1DTrans false) "TFuncBias"
    = Some (Uniform1 (scale_bias_and_scale p).1)
  /\ uniforms r' (m_pProgram1DTrans false) "fTransScale"
     = Some (Uniform1 (scale_bias_and_scale p).2)
  /\ (forall n, uniforms r' (m_pProgram1DTrans true) n
                = uniforms p (m_pProgram1DTrans true) n)
  /\ current_program r' = None
  /\ gl r' = gl p.
Proof.
  intros p r' Hmode Hmeth. subst r'. unfold SetDataDepShaderVars. fold p.
  rewrite Hmode, Hmeth. cbn [is_RM is_SMETH andb].
  rewrite Hmode. cbn [is_RM is_SMETH andb].
  split; [|split; [|split; [|split]]].
  - cbn. rewrite decide_False by (intros [_ E]; discriminate E).
    rewrite decide_True; [reflexivity | split; reflexivity].
  - cbn. rewrite decide_True; [reflexivity | split; reflexivity].
  - intros n. cbn.
    rewrite ?decide_False by (intros [E _]; discriminate E). reflexivity.
  - reflexivity.
  - reflexivity.
Qed.

(** X24.  [UpdateColorsInShaders] gives the isosurface program ambient,
    diffuse and specular light, while the colour program gets ambient light
    only: its [vLightDiffuse] and [vLightSpecular] are as the parent left
    them.  Both get the same headlight direction and domain scale, and no
    program stays active. *)
Theorem UpdateColorsInShaders_uniforms (m : RendererColors F) (r : GLSBVR2D F) :
  let p := GLRenderer_UpdateColorsInShaders r in
  let r' := UpdateColorsInShaders GLRenderer_UpdateColorsInShaders
              f_zero f_minus_one m r in
  let a := xyz_times_w (m_cAmbient m) in
  let d := xyz_times_w (m_cDiffuse m) in
  let s := xyz_times_w (m_cSpecular m) in
  uniforms r' m_pProgramIsoNoCompose "vLightAmbient" = Some (Uniform3 (x a) (y a) (z a))
  /\ uniforms r' m_pProgramIsoNoCompose "vLightDiffuse" = Some (Uniform3 (x d) (y d) (z d))
  /\ uniforms r' m_pProgramIsoNoCompose "vLightSpecular" = Some (Uniform3 (x s) (y s) (z s))
  /\ uniforms r' m_pProgramColorNoCompose "vLightAmbient" = Some (Uniform3 (x a) (y a) (z a))
  /\ uniforms r' m_pProgramColorNoCompose "vLightDiffuse"
     = uniforms p m_pProgramColorNoCompose "vLightDiffuse"
  /\ uniforms r' m_pProgramColorNoCompose "vLightSpecular"
     = uniforms p m_pProgramColorNoCompose "vLightSpecular"
  /\ uniforms r' m_pProgramColorNoCompose "vLightDir"
     = Some (Uniform3 f_zero f_zero f_minus_one)
  /\ uniforms r' m_pProgramIsoNoCompose "vLightDir"
     = uniforms r' m_pProgramColorNoCompose "vLightDir"
  /\ uniforms r' m_pProgramIsoNoCompose "vDomainScale"
     = uniforms r' m_pProgramColorNoCompose "vDomainScale"
  /\ current_program r' = None
  /\ gl r' = gl p.
Proof.
  cbv zeta. unfold UpdateColorsInShaders. cbn.
  repeat split;
    repeat (first
      [ rewrite decide_True by (split; reflexivity)
      | rewrite decide_False by (intros [E1 E2]; first [discriminate E1 | discriminate E2]) ]);
    reflexivity.
Qed.

(** X25.  [SetBrickDepShaderVars] changes uniforms of one program at most,
    the one drawing in the current mode; it switches no program, changes no
    GL state and does not touch the slice generator.  With lighting on, the
    unlit 1-D and 2-D programs keep the step scale they had. *)
Theorem SetBrickDepShaderVars_frame (b : Brick) (r : GLSBVR2D F) :
  let r' := SetBrickDepShaderVars b r in
  gl r' = gl r
  /\ current_program r' = current_program r
  /\ texture_unit1 r' = texture_unit1 r
  /\ m_SBVRGeogen r' = m_SBVRGeogen r
  /\ forall q n, brick_shader r <> Some q -> uniforms r' q n = uniforms r q n.
Proof.
  intros r'. subst r'. unfold SetBrickDepShaderVars, brick_shader.
  destruct (m_eRenderMode r).
  - cbn [m_bUseLighting SetUniformVector]. destruct (m_bUseLighting r);
      (repeat (split; [reflexivity|])); intros q n H; cbn;
      rewrite ?decide_False by (intros [E _]; apply H; now rewrite E);
      reflexivity.
  - (repeat (split; [reflexivity|])); intros q n H; cbn;
      rewrite ?decide_False by (intros [E _]; apply H; now rewrite E);
      reflexivity.
  - (repeat (split; [reflexivity|])); intros q n H.
    apply uniforms_SetUniformVector_program. intros E. apply H. now rewrite E.
  - (repeat (split; [reflexivity|])); intros q n H. reflexivity.
Qed.

(** X26.  [Render3DPreLoop] hands the slice generator the sampling rate in
    force, the clip-plane switch and the domain size of the current level,
    each component narrowed to 32 bits, in every mode.  The transfer-function
    modes bind their table to unit 1 and
    activate their program; the isosurface fast path activates its program
    and blends; two-pass isosurface mode only switches the depth test on,
    with no program activated and blending untouched; an invalid mode is
    reported and changes no GL state. *)
Theorem Render3DPreLoop_setup (r : GLSBVR2D F) :
  let r' := Render3DPreLoop r in
  let d := dataset_GetDomainSize r (m_iCurrentLOD r) in
  m_SBVRGeogen r'
  = mkGeogen (effective_sample_rate r) (m_bClipPlaneOn r)
      (Vec3 (x d mod 2 ^ 32) (y d mod 2 ^ 32) (z d mod 2 ^ 32))
  /\ match m_eRenderMode r with
     | RM_1DTRANS =>
         texture_unit1 r' = Some m_p1DTransTex
         /\ current_program r' = Some (m_pProgram1DTrans (m_bUseLighting r))
         /\ GL_DEPTH_TEST (gl r') = GL_DEPTH_TEST (gl r)
     | RM_2DTRANS =>
         texture_unit1 r' = Some m_p2DTransTex
         /\ current_program r' = Some (m_pProgram2DTrans (m_bUseLighting r))
         /\ GL_DEPTH_TEST (gl r') = GL_DEPTH_TEST (gl r)
     | RM_ISOSURFACE =>
         if m_bAvoidSeperateCompositing r then
           current_program r'
           = Some (if dataset_GetComponentCount r =? 1
                   then m_pProgramIsoNoCompose else m_pProgramColorNoCompose)
           /\ GL_BLEND (gl r') = true
           /\ blend_sfactor (gl r') = GL_ONE_MINUS_DST_ALPHA
           /\ blend_dfactor (gl r') = GL_ONE
           /\ GL_DEPTH_TEST (gl r') = GL_DEPTH_TEST (gl r)
         else
           GL_DEPTH_TEST (gl r') = true
           /\ GL_BLEND (gl r') = GL_BLEND (gl r)
           /\ current_program r' = current_program r
     | RM_INVALID =>
         gl r' = gl r
         /\ current_program r' = current_program r
         /\ errors r' = errors r ++ ["Invalid rendermode set"%string]
     end.
Proof.
  intros r' d. subst r' d. unfold Render3DPreLoop.
  cbn -[Z.pow Z.modulo uint32_t]. unfold uint32_t, wrap.
  destruct (m_eRenderMode r); cbn -[Z.pow Z.modulo].
  - repeat split.
  - repeat split.
  - destruct (m_bAvoidSeperateCompositing r); cbn -[Z.pow Z.modulo].
    + destruct (dataset_GetComponentCount r =? 1); repeat split.
    + repeat split.
  - repeat split.
Qed.

End RendererMoreFacts.

(** X23 (example).  A lit 1-D renderer, the parent's part doing nothing. *)
Lemma SetDataDepShaderVars_bias_scale_example :
  m_eRenderMode lit_1d_renderer = RM_1DTRANS
  /\ m_TFScalingMethod bias_and_scale_colors = SMETH_BIAS_AND_SCALE
  /\ uniforms (SetDataDepShaderVars (fun r => r) (fun _ => FOne)
                 (fun _ => (FSqrt2, FOne)) bias_and_scale_colors lit_1d_renderer)
       (m_pProgram1DTrans false) "TFuncBias"
     = Some (Uniform1 ((fun _ : GLSBVR2D fexpr => (FSqrt2, FOne)) lit_1d_renderer).1)
  /\ uniforms (SetDataDepShaderVars (fun r => r) (fun _ => FOne)
                 (fun _ => (FSqrt2, FOne)) bias_and_scale_colors lit_1d_renderer)
       (m_pProgram1DTrans false) "fTransScale"
     = Some (Uniform1 ((fun _ : GLSBVR2D fexpr => (FSqrt2, FOne)) lit_1d_renderer).2)
  /\ (forall n, uniforms (SetDataDepShaderVars (fun r => r) (fun _ => FOne)
                            (fun _ => (FSqrt2, FOne)) bias_and_scale_colors
                            lit_1d_renderer) (m_pProgram1DTrans true) n
                = uniforms lit_1d_renderer (m_pProgram1DTrans true) n)
  /\ current_program (SetDataDepShaderVars (fun r => r) (fun _ => FOne)
                        (fun _ => (FSqrt2, FOne)) bias_and_scale_colors
                        lit_1d_renderer) = None
  /\ gl (SetDataDepShaderVars (fun r => r) (fun _ => FOne)
           (fun _ => (FSqrt2, FOne)) bias_and_scale_colors lit_1d_renderer)
     = gl lit_1d_renderer.
Proof.
  assert (H1 : m_eRenderMode lit_1d_renderer = RM_1DTRANS) by reflexivity.
  assert (H2 : m_TFScalingMethod bias_and_scale_colors = SMETH_BIAS_AND_SCALE)
    by reflexivity.
  split; [exact H1 | split; [exact H2|]].
  exact (SetDataDepShaderVars_bias_scale (fun r => r) (fun _ => FOne)
           (fun _ => (FSqrt2, FOne)) bias_and_scale_colors lit_1d_renderer H1 H2).
Defined.

(** * Properties of the qualified-name helpers of the scripting system *)

Lemma find_first_of_None (delims s : list ascii) :
  forall pos, find_first_of delims s pos = None ->
  Forall (fun c => c ∉ delims) (drop pos s).
Proof.
  induction s as [|c s IH]; intros pos H.
  - rewrite drop_nil. constructor.
  - destruct pos as [|p]; cbn in H.
    + case_bool_decide; [discriminate|].
      destruct (find_first_of delims s 0) eqn:E; [discriminate|].
      cbn. constructor; [assumption|]. apply (IH 0%nat E).
    + destruct (find_first_of delims s p) eqn:E; [discriminate|].
      cbn. apply (IH p E).
Qed.

Lemma find_first_of_Some (delims s : list ascii) :
  forall pos e, find_first_of delims s pos = Some e ->
  exists tok d rest,
    drop pos s = tok ++ d :: rest
    /\ Forall (fun c => c ∉ delims) tok
    /\ d ∈ delims
    /\ e = (pos + length tok)%nat.
Proof.
  induction s as [|c s IH]; intros pos e H; [discriminate|].
  destruct pos as [|p]; cbn in H.
  - case_bool_decide as Hc.
    + injection H as <-. exists [], c, s. repeat split; auto.
    + destruct (find_first_of delims s 0) as [e'|] eqn:E; [|discriminate].
      injection H as <-. destruct (IH 0%nat e' E) as (tok & d & rest & Hd & Ht & Hin & He).
      exists (c :: tok), d, rest. rewrite drop_0 in Hd. rewrite drop_0, Hd.
      cbn. repeat split; auto; lia.
  - destruct (find_first_of delims s p) as [e'|] eqn:E; [|discriminate].
    injection H as <-. destruct (IH p e' E) as (tok & d & rest & Hd & Ht & Hin & He).
    exists tok, d, rest. cbn. repeat split; auto.
Qed.

Lemma find_last_of_None (delims s : list ascii) :
  Forall (fun c => c ∉ delims) s -> find_last_of delims s = None.
Proof.
  induction 1 as [|c s Hc _ IH]; [reflexivity|].
  cbn. rewrite IH. now rewrite bool_decide_eq_false_2.
Qed.

Lemma find_last_of_app (delims q n : list ascii) (d : ascii) :
  d ∈ delims -> Forall (fun c => c ∉ delims) n ->
  find_last_of delims (q ++ d :: n) = Some (length q).
Proof.
  intros Hd Hn. induction q as [|c q IH]; cbn.
  - rewrite (find_last_of_None _ _ Hn). now rewrite bool_decide_eq_true_2.
  - now rewrite IH.
Qed.

Lemma not_in_delimiter (c : ascii) :
  c ∉ QUALIFIED_NAME_DELIMITER <-> c <> "."%char.
Proof.
  unfold QUALIFIED_NAME_DELIMITER. rewrite list_elem_of_singleton. reflexivity.
Qed.

Lemma in_delimiter (c : ascii) :
  c ∈ QUALIFIED_NAME_DELIMITER <-> c = "."%char.
Proof. unfold QUALIFIED_NAME_DELIMITER. apply list_elem_of_singleton. Qed.

Lemma getUnqualifiedName_plain (n : list ascii) :
  Forall (fun c => c <> "."%char) n -> getUnqualifiedName n = n.
Proof.
  intros H. unfold getUnqualifiedName. rewrite find_last_of_None; [reflexivity|].
  eapply Forall_impl; [exact H|]. intros c Hc. now apply not_in_delimiter.
Qed.

Lemma getUnqualifiedName_qualified (q n : list ascii) :
  Forall (fun c => c <> "."%char) n ->
  getUnqualifiedName (q ++ "."%char :: n) = n.
Proof.
  intros H. unfold getUnqualifiedName.
  rewrite (find_last_of_app _ q n "."%char).
  - unfold substr. rewrite drop_app_ge by lia.
    replace (length q + 1 - length q)%nat with 1%nat by lia. reflexivity.
  - now apply in_delimiter.
  - eapply Forall_impl; [exact H|]. intros c Hc. now apply not_in_delimiter.
Qed.

(** X27.  [getUnqualifiedName] returns what follows the last period: a name
    without a period is returned as it is, and any qualifier put in front of
    it, with a period, is stripped.  In particular the result never contains
    a period, and a name ending in a period yields the empty string. *)
Theorem getUnqualifiedName_strips (n : list ascii) :
  Forall (fun c => c <> "."%char) n ->
  getUnqualifiedName n = n
  /\ forall q, getUnqualifiedName (q ++ "."%char :: n) = n.
Proof.
  intros H. split.
  - now apply getUnqualifiedName_plain.
  - intros q. now apply getUnqualifiedName_qualified.
Qed.

Lemma join_snoc (sep : ascii) (init : list (list ascii)) (lst : list ascii) :
  join sep (init ++ [lst]) = concat ((fun t => t ++ [sep]) <$> init) ++ lst.
Proof.
  induction init as [|a init IH]; [reflexivity|].
  cbn [app join fmap list_fmap concat].
  destruct (init ++ [lst]) as [|b l] eqn:E.
  - destruct init; discriminate.
  - rewrite IH. rewrite <- !app_assoc. reflexivity.
Qed.

(** The loop keeps: the tokens so far, each followed by a period, spell the
    first [beg] characters; after the first token there is always something
    left to read. *)
Lemma tokenize_loop_inv (s : list ascii) :
  forall (fuel beg : nat) (tokens : list (list ascii)),
  (beg <= length s)%nat ->
  (length s - beg < fuel)%nat ->
  (tokens <> [] -> (beg < length s)%nat) ->
  take beg s = concat ((fun t => t ++ ["."%char]) <$> tokens) ->
  Forall (Forall (fun c => c <> "."%char)) tokens ->
  match tokenize_loop fuel s beg tokens with
  | Some (inl ts) =>
      exists init lst,
        ts = init ++ [lst]
        /\ s = concat ((fun t => t ++ ["."%char]) <$> init) ++ lst
        /\ Forall (Forall (fun c => c <> "."%char)) ts
        /\ (init <> [] -> lst <> [])
  | Some (inr msg) =>
      msg = "Invalid function name. No function name after trailing period."%string
      /\ exists pre, s = pre ++ ["."%char]
  | None => False
  end.
Proof.
  induction fuel as [|fuel IH]; intros beg tokens Hle Hfuel Hne Htake Hall; [lia|].
  cbn [tokenize_loop].
  destruct (find_first_of QUALIFIED_NAME_DELIMITER s beg) as [e|] eqn:E.
  - destruct (find_first_of_Some _ _ _ _ E) as (tok & d & rest & Hd & Ht & Hin & He).
    apply in_delimiter in Hin. subst d.
    assert (Hs : s = take beg s ++ tok ++ "."%char :: rest)
      by (rewrite <- Hd; symmetry; apply take_drop).
    assert (Hlen : length s = (beg + length tok + 1 + length rest)%nat).
    { rewrite Hs at 1. rewrite !length_app, length_take. cbn [length]. lia. }
    assert (Htok : substr s beg (Some (e - beg)%nat) = tok).
    { unfold substr. rewrite Hd. apply take_app_length'. lia. }
    rewrite Htok.
    destruct (Nat.eqb_spec (e + 1) (length s)) as [Heq|Hneq].
    + split; [reflexivity|]. exists (take beg s ++ tok).
      assert (rest = []) as -> by (destruct rest; [reflexivity | cbn in Hlen; lia]).
      rewrite <- app_assoc. exact Hs.
    + apply IH.
      * lia.
      * lia.
      * intros _. lia.
      * rewrite fmap_app, concat_app. cbn [fmap list_fmap concat]. rewrite app_nil_r.
        rewrite <- Htake. rewrite Hs at 1.
        change (take beg s ++ tok ++ "."%char :: rest)
          with (take beg s ++ tok ++ ["."%char] ++ rest).
        rewrite !app_assoc.
        apply take_app_length'. rewrite !length_app, length_take. cbn [length]. lia.
      * apply Forall_app. split; [assumption|]. constructor; [|constructor].
        eapply Forall_impl; [exact Ht|]. intros c Hc. now apply not_in_delimiter.
  - exists tokens, (drop beg s). split; [reflexivity|]. split; [|split].
    + rewrite <- Htake. symmetry. apply take_drop.
    + apply Forall_app. split; [assumption|]. constructor; [|constructor].
      eapply Forall_impl; [exact (find_first_of_None _ _ _ E)|].
      intros c Hc. now apply not_in_delimiter.
    + intros Hi Hnil. specialize (Hne Hi).
      apply (f_equal length) in Hnil. rewrite length_drop in Hnil. cbn in Hnil. lia.
Qed.

Lemma tokenize_cases (fqName : list ascii) :
  match tokenize fqName with
  | Some (inl ts) =>
      exists init lst,
        ts = init ++ [lst]
        /\ fqName = concat ((fun t => t ++ ["."%char]) <$> init) ++ lst
        /\ Forall (Forall (fun c => c <> "."%char)) ts
        /\ (init <> [] -> lst <> [])
  | Some (inr msg) =>
      msg = "Invalid function name. No function name after trailing period."%string
      /\ exists pre, fqName = pre ++ ["."%char]
  | None => False
  end.
Proof.
  unfold tokenize.
  assert (H0 : ([] : list (list ascii)) <> [] -> (0 < length fqName)%nat)
    by (intros N; now contradiction N).
  pose proof (tokenize_loop_inv fqName (S (length fqName)) 0 []
                (Nat.le_0_l _) ltac:(lia) H0 eq_refl
                (Forall_nil_2 _)) as H.
  destruct (tokenize_loop (S (length fqName)) fqName 0 []) as [[ts|msg]|].
  - destruct H as (init & lst & -> & H).
    rewrite length_app. cbn [length].
    replace (length init + 1 =? 0)%nat with false
      by (symmetry; apply Nat.eqb_neq; lia).
    exists init, lst. split; [reflexivity | exact H].
  - exact H.
  - exact H.
Qed.

(** X28.  The tokenizer of [bindClosureTableWithFQName] always comes to an
    end.  When it returns tokens, there is at least one, none contains a
    period, written out with periods between them they spell the qualified
    name again, and the last one is what [getUnqualifiedName] returns. *)
Theorem tokenize_tokens (fqName : list ascii) :
  match tokenize fqName with
  | Some (inl tokens) =>
      tokens <> []
      /\ Forall (Forall (fun c => c <> "."%char)) tokens
      /\ join "."%char tokens = fqName
      /\ last tokens = Some (getUnqualifiedName fqName)
  | Some (inr _) => True
  | None => False
  end.
Proof.
  pose proof (tokenize_cases fqName) as H.
  destruct (tokenize fqName) as [[ts|msg]|]; [|exact I|exact H].
  destruct H as (init & lst & -> & Hs & Hall & Hne).
  split; [destruct init; discriminate|]. split; [exact Hall|]. split.
  - rewrite join_snoc. now rewrite <- Hs.
  - rewrite last_snoc. f_equal.
    apply Forall_app in Hall as [Hinit Hlst].
    apply Forall_cons in Hlst as [Hlst _].
    destruct init as [|a init _] using rev_ind.
    + cbn in Hs. subst fqName. symmetry. now apply getUnqualifiedName_plain.
    + rewrite fmap_app, concat_app in Hs. cbn [fmap list_fmap concat] in Hs.
      rewrite app_nil_r in Hs. rewrite <- !app_assoc in Hs. cbn [app] in Hs.
      rewrite Hs. symmetry.
      rewrite app_assoc. now apply getUnqualifiedName_qualified.
Qed.

(** X29.  The tokenizer throws exactly for names that end in a period, and
    always with the trailing-period message: "No function name specified."
    is never thrown, the empty name giving one empty token instead. *)
Theorem tokenize_throws (fqName : list ascii) :
  ((exists pre, fqName = pre ++ ["."%char])
   <-> tokenize fqName
       = Some (inr "Invalid function name. No function name after trailing period."%string))
  /\ tokenize fqName <> Some (inr "No function name specified."%string)
  /\ tokenize [] = Some (inl [[]]).
Proof.
  pose proof (tokenize_cases fqName) as H.
  split; [|split; [|reflexivity]].
  - destruct (tokenize fqName) as [[ts|msg]|]; [| |contradiction].
    + destruct H as (init & lst & -> & Hs & Hall & Hne). split; [|discriminate].
      intros [pre Hpre]. exfalso.
      apply Forall_app in Hall as [_ Hlst].
      apply Forall_cons in Hlst as [Hlst _].
      destruct lst as [|c lst _] using rev_ind.
      * destruct init as [|a init]; [|now apply Hne].
        cbn in Hs. subst fqName. destruct pre; discriminate.
      * rewrite Hs, app_assoc in Hpre. apply app_inj_tail in Hpre as [_ ->].
        apply Forall_app in Hlst as [_ Hc]. apply Forall_cons in Hc as [Hc _].
        now apply Hc.
    + destruct H as [-> Hpre]. split; auto.
  - destruct (tokenize fqName) as [[ts|msg]|]; [discriminate| |contradiction].
    destruct H as [-> _]. discriminate.
Qed.

(** X27 (example).  ["b"] and ["a.b"]. *)
Lemma getUnqualifiedName_strips_example :
  Forall (fun c => c <> "."%char) ["b"%char]
  /\ getUnqualifiedName ["b"%char] = ["b"%char]
  /\ forall q, getUnqualifiedName (q ++ "."%char :: ["b"%char]) = ["b"%char].
Proof.
  assert (H : Forall (fun c => c <> "."%char) ["b"%char])
    by (constructor; [discriminate | constructor]).
  split; [exact H|].
  exact (getUnqualifiedName_strips ["b"%char] H).
Defined.

Lemma getNewMemberHookID_inj (i j : Z) :
  (getNewMemberHookID i).1 = (getNewMemberHookID j).1 -> i = j.
Proof.
  unfold getNewMemberHookID. cbn [fst]. intros H. injection H as H.
  apply DecimalZ.to_int_inj.
  assert (Hnn : forall z, Z.to_int z <> Decimal.Pos Decimal.Nil
                          /\ Z.to_int z <> Decimal.Neg Decimal.Nil).
  { intros [|p|p]; cbn; split; try discriminate;
      intros E; injection E as E; now apply DecimalPos.Unsigned.to_uint_nonnil in E. }
  apply (f_equal NilZero.int_of_string) in H.
  rewrite !NilZero.isi in H by apply Hnn. now injection H.
Qed.

Lemma hook_ids_fmap (n : nat) :
  forall i, hook_ids n i = (fun k => (getNewMemberHookID k).1) <$> seqZ i (Z.of_nat n).
Proof.
  induction n as [|n IH]; intros i; [reflexivity|].
  cbn [hook_ids getNewMemberHookID]. rewrite IH.
  rewrite Nat2Z.inj_succ. rewrite (seqZ_cons i) by lia.
  cbn [fmap list_fmap getNewMemberHookID fst].
  do 3 f_equal; lia.
Qed.

(** X30.  As long as the counter stays within the range of an [int], the
    hook identifiers handed out by any number of calls in a row are pairwise
    different; each is ["mh"] followed by the counter in decimal, the first
    three being mh0, mh1 and mh2. *)
Theorem getNewMemberHookID_fresh (n : nat) (mMemberHookIndex : Z) :
  0 <= mMemberHookIndex ->
  mMemberHookIndex + Z.of_nat n <= 2147483647 ->
  NoDup (hook_ids n mMemberHookIndex)
  /\ length (hook_ids n mMemberHookIndex) = n
  /\ hook_ids 3 0 = ["mh0"; "mh1"; "mh2"]%string.
Proof.
  intros _ _. rewrite hook_ids_fmap. split; [|split].
  - apply NoDup_fmap_2; [|apply NoDup_seqZ].
    intros i j. apply getNewMemberHookID_inj.
  - rewrite length_fmap, length_seqZ. lia.
  - reflexivity.
Qed.

(** X30 (example).  Five calls on a counter at 7. *)
Lemma getNewMemberHookID_fresh_example :
  0 <= 7
  /\ 7 + Z.of_nat 5 <= 2147483647
  /\ NoDup (hook_ids 5 7)
  /\ length (hook_ids 5 7) = 5%nat
  /\ hook_ids 3 0 = ["mh0"; "mh1"; "mh2"]%string.
Proof.
  assert (H1 : 0 <= 7) by lia.
  assert (H2 : 7 + Z.of_nat 5 <= 2147483647) by (cbn; lia).
  split; [exact H1 | split; [exact H2|]].
  exact (getNewMemberHookID_fresh 5 7 H1 H2).
Defined.
